(** * Display: traceable printing to console and files

    A shallow embedding of [src/Display.c] and of the macros of
    [src/Display.h], built without [-DMATLAB] and without [-DNOFPRINTF].

    The global variables of [Display.c] are the fields of one record, the
    [world], together with the two things the library acts on: the mutex
    [consoleLock] and the sequence of effects performed so far.  A C function
    is a function from a world to an [outcome]: it returns, it calls
    [exit], it blocks for ever on the mutex, or it has no defined behaviour.

    The development is sequential: it follows one thread, so a locked mutex
    is a mutex locked by that thread.  [CloseDisplay], which only destroys
    the mutex, is left out. *)

From Stdlib Require Import ZArith Lia Ascii String DecimalString.
From stdpp Require Import base numbers list.

Local Open Scope Z_scope.

(** ** Characters, C strings and character arrays *)

(** A C string is given by its content, the characters before the
    terminator.  A character array is the list of all its cells. *)
Definition text := list ascii.

Definition cs (s : string) : text := list_ascii_of_string s.

Definition NUL : ascii := ascii_of_nat 0.
Definition LF : ascii := ascii_of_nat 10.
Definition ESC : ascii := ascii_of_nat 27.

(** The string held by a character array: its cells up to the first NUL. *)
Fixpoint c_str (buf : list ascii) : text :=
  match buf with
  | [] => []
  | c :: rest => if Ascii.eqb c NUL then [] else c :: c_str rest
  end.

(** [strncpy(dst, src, n)]: the first [n] cells of [dst] receive the
    characters of [src], cut at [n] or padded with NULs up to [n]; no
    terminator is written when [src] has [n] characters or more.  The source
    is read up to a NUL, should the list hold one. *)
Definition strncpy (dst : list ascii) (src : text) (n : nat) : list ascii :=
  take n (c_str src ++ replicate n NUL) ++ drop n dst.

(** [snprintf(dst, size, "%s", src)]: at most [size - 1] characters of [src]
    and then a terminator. *)
Definition snprintf_s (dst : list ascii) (size : nat) (src : text) : list ascii :=
  match size with
  | O => dst
  | S m => let out := take m (c_str src) in
           out ++ NUL :: drop (S (length out)) dst
  end.

(** ** Display.h: constants *)

Definition BUFFLEN : Z := 256.

Definition BLACK : text := ESC :: cs "[30m".
Definition RED : text := ESC :: cs "[31m".
Definition GREEN : text := ESC :: cs "[32m".
Definition YELLOW : text := ESC :: cs "[33m".
Definition BLUE : text := ESC :: cs "[34m".
Definition MAGENTA : text := ESC :: cs "[35m".
Definition CYAN : text := ESC :: cs "[36m".
Definition WHITE : text := ESC :: cs "[37m".
Definition RESET : text := ESC :: cs "[0m".
Definition BOLD : text := ESC :: cs "[1m".
Definition FAINT : text := ESC :: cs "[2m".
Definition ITALIC : text := ESC :: cs "[3m".
Definition UNDERLINE : text := ESC :: cs "[4m".

(** [enum Verbosity] *)
Definition DISABLE : Z := 0.
Definition ENABLE : Z := 1.

(** [enum PrintType] *)
Definition STANDARD : Z := 0.
Definition WARNING : Z := 1.
Definition ERROR : Z := 2.
Definition CUSTOM : Z := 3.

(** A C condition [if (x)] on an [int]. *)
Definition truthy (x : Z) : bool := negb (x =? 0).

(** ** Streams *)

(** A [FILE *]: the null pointer, the two standard streams, or a stream the
    caller opened. *)
Inductive FILE_ptr : Type :=
  | NULL
  | stdout
  | stderr
  | fopened (n : nat).

#[global] Instance FILE_ptr_eq_dec : EqDecision FILE_ptr.
Proof. solve_decision. Defined.

#[global] Instance FILE_ptr_inhabited : Inhabited FILE_ptr := populate NULL.

(** ** The printf family *)

(** The conversions the model covers are [%%], [%d] and [%s].  Any other
    conversion, a conversion without an argument of its type, and a lone [%]
    at the end of the format have no result in the model. *)
Inductive va_arg : Type :=
  | VInt (n : Z)
  | VStr (s : text).

Definition decimal (n : Z) : text :=
  list_ascii_of_string (NilZero.string_of_int (Z.to_int n)).

Fixpoint format_output (format : text) (args : list va_arg) : option text :=
  match format with
  | [] => Some []
  | c :: rest =>
      if Ascii.eqb c "%" then
        match rest with
        | [] => None
        | k :: rest' =>
            if Ascii.eqb k "%" then cons k <$> format_output rest' args
            else if Ascii.eqb k "d" then
              match args with
              | VInt n :: args' => app (decimal n) <$> format_output rest' args'
              | _ => None
              end
            else if Ascii.eqb k "s" then
              match args with
              | VStr s :: args' => app s <$> format_output rest' args'
              | _ => None
              end
            else None
        end
      else cons c <$> format_output rest args
  end.

(** [vsnprintf(buf, size, format, args)]: the string left in [buf], at most
    [size - 1] characters of the formatted output. *)
Definition vsnprintf (size : Z) (format : text) (args : list va_arg) : option text :=
  take (Z.to_nat (size - 1)) <$> format_output format args.

(** ** Time *)

(** The fields of [struct tm] that ["%T"] reads. *)
Record tm : Type := mk_tm { tm_hour : Z; tm_min : Z; tm_sec : Z }.

Definition digit (d : Z) : ascii := ascii_of_nat (48 + Z.to_nat d).

Definition two_digits (n : Z) : text := [digit (n / 10); digit (n mod 10)].

(** [strftime(timestamp, sizeof(timestamp), "%T", timeinfo)] *)
Definition strftime_T (t : tm) : text :=
  two_digits (tm_hour t) ++ ":"%char :: two_digits (tm_min t)
    ++ ":"%char :: two_digits (tm_sec t).

(** ** The world *)

(** What the library does to its surroundings, in order. *)
Inductive event : Type :=
  | EvLock
  | EvUnlock
  | EvWrite (stream : FILE_ptr) (s : text).

Record world : Type := mk_world {
  verbose : Z;
  colorfulness : Z;
  file : list ascii;
  autoNewline : Z;
  showTrace : Z;
  streams : list FILE_ptr;
  stdoutToFile : Z;
  stderrToFile : Z;
  isLocked : Z;
  timestamp : text;
  consoleLock : bool;
  trace : list event
}.

Definition set_verbose (v : Z) (w : world) : world :=
  mk_world v (colorfulness w) (file w) (autoNewline w) (showTrace w)
    (streams w) (stdoutToFile w) (stderrToFile w) (isLocked w) (timestamp w)
    (consoleLock w) (trace w).

Definition set_colorfulness (c : Z) (w : world) : world :=
  mk_world (verbose w) c (file w) (autoNewline w) (showTrace w)
    (streams w) (stdoutToFile w) (stderrToFile w) (isLocked w) (timestamp w)
    (consoleLock w) (trace w).

Definition set_file (f : list ascii) (w : world) : world :=
  mk_world (verbose w) (colorfulness w) f (autoNewline w) (showTrace w)
    (streams w) (stdoutToFile w) (stderrToFile w) (isLocked w) (timestamp w)
    (consoleLock w) (trace w).

Definition set_autoNewline (a : Z) (w : world) : world :=
  mk_world (verbose w) (colorfulness w) (file w) a (showTrace w)
    (streams w) (stdoutToFile w) (stderrToFile w) (isLocked w) (timestamp w)
    (consoleLock w) (trace w).

Definition set_showTrace (s : Z) (w : world) : world :=
  mk_world (verbose w) (colorfulness w) (file w) (autoNewline w) s
    (streams w) (stdoutToFile w) (stderrToFile w) (isLocked w) (timestamp w)
    (consoleLock w) (trace w).

Definition set_streams (s : list FILE_ptr) (w : world) : world :=
  mk_world (verbose w) (colorfulness w) (file w) (autoNewline w) (showTrace w)
    s (stdoutToFile w) (stderrToFile w) (isLocked w) (timestamp w)
    (consoleLock w) (trace w).

Definition set_stdoutToFile (b : Z) (w : world) : world :=
  mk_world (verbose w) (colorfulness w) (file w) (autoNewline w) (showTrace w)
    (streams w) b (stderrToFile w) (isLocked w) (timestamp w)
    (consoleLock w) (trace w).

Definition set_stderrToFile (b : Z) (w : world) : world :=
  mk_world (verbose w) (colorfulness w) (file w) (autoNewline w) (showTrace w)
    (streams w) (stdoutToFile w) b (isLocked w) (timestamp w)
    (consoleLock w) (trace w).

Definition set_isLocked (l : Z) (w : world) : world :=
  mk_world (verbose w) (colorfulness w) (file w) (autoNewline w) (showTrace w)
    (streams w) (stdoutToFile w) (stderrToFile w) l (timestamp w)
    (consoleLock w) (trace w).

Definition set_timestamp (t : text) (w : world) : world :=
  mk_world (verbose w) (colorfulness w) (file w) (autoNewline w) (showTrace w)
    (streams w) (stdoutToFile w) (stderrToFile w) (isLocked w) t
    (consoleLock w) (trace w).

Definition set_consoleLock (b : bool) (w : world) : world :=
  mk_world (verbose w) (colorfulness w) (file w) (autoNewline w) (showTrace w)
    (streams w) (stdoutToFile w) (stderrToFile w) (isLocked w) (timestamp w)
    b (trace w).

Definition set_trace (t : list event) (w : world) : world :=
  mk_world (verbose w) (colorfulness w) (file w) (autoNewline w) (showTrace w)
    (streams w) (stdoutToFile w) (stderrToFile w) (isLocked w) (timestamp w)
    (consoleLock w) t.

Definition emit (e : event) (w : world) : world := set_trace (trace w ++ [e]) w.

Definition emits (es : list event) (w : world) : world := set_trace (trace w ++ es) w.

(** The variables of [Display.c] as the program starts: the initialisers of
    lines 14 to 30, zero for the rest, a free mutex, nothing done yet. *)
Definition startup : world :=
  {| verbose := ENABLE;
     colorfulness := ENABLE;
     file := "?"%char :: replicate 31 NUL;
     autoNewline := ENABLE;
     showTrace := ENABLE;
     streams := [NULL; NULL; NULL];
     stdoutToFile := 0;
     stderrToFile := 0;
     isLocked := 0;
     timestamp := [];
     consoleLock := false;
     trace := [] |}.

(** ** Outcomes and the monad of C functions *)

Inductive outcome (A : Type) : Type :=
  | Ret (a : A) (w : world)
  | Exit (code : Z) (w : world)
  | Blocked (w : world)
  | Undefined.

Arguments Ret {A} a w.
Arguments Exit {A} code w.
Arguments Blocked {A} w.
Arguments Undefined {A}.

Definition M (A : Type) : Type := world -> outcome A.

Definition ret {A} (a : A) : M A := fun w => Ret a w.

Definition bind {A B} (m : M A) (k : A -> M B) : M B :=
  fun w =>
    match m w with
    | Ret a w' => k a w'
    | Exit code w' => Exit code w'
    | Blocked w' => Blocked w'
    | Undefined => Undefined
    end.

Declare Scope c_scope.
Delimit Scope c_scope with C.
Notation "x <- m ;; k" := (bind m (fun x => k))
  (at level 100, m at next level, right associativity) : c_scope.
Notation "m ;; k" := (bind m (fun _ => k))
  (at level 100, right associativity) : c_scope.
Local Open Scope c_scope.

Definition gets {A} (f : world -> A) : M A := fun w => Ret (f w) w.
Definition modify (f : world -> world) : M unit := fun w => Ret tt (f w).
Definition exit {A} (code : Z) : M A := fun w => Exit code w.
Definition undefined {A} : M A := fun _ => Undefined.
Definition when (b : bool) (m : M unit) : M unit := if b then m else ret tt.

(** ** libc and pthread calls *)

(** [pthread_mutex_lock] on a default mutex: the thread that already holds
    it waits for itself. *)
Definition pthread_mutex_lock : M unit :=
  fun w => if consoleLock w then Blocked w
           else Ret tt (emit EvLock (set_consoleLock true w)).

(** [pthread_mutex_unlock]: undefined on a mutex that is not locked. *)
Definition pthread_mutex_unlock : M unit :=
  fun w => if consoleLock w then Ret tt (emit EvUnlock (set_consoleLock false w))
           else Undefined.

(** [fprintf(stream, "%s", s)] *)
Definition fprintf_s (stream : FILE_ptr) (s : text) : M unit :=
  match stream with
  | NULL => undefined
  | _ => modify (emit (EvWrite stream s))
  end.

(** ** Display.c *)

(** [dprint(stream, format, ...)], lines 292 to 322. *)
Definition dprint (stream : FILE_ptr) (format : text) (args : list va_arg) : M unit :=
  match vsnprintf (BUFFLEN - 1) format args with
  | Some messageBuffer => fprintf_s stream messageBuffer
  | None => undefined
  end.

Definition GetVerbose : M Z := gets verbose.

Definition SetVerbose (v : Z) : M Z :=
  if (v =? DISABLE) || (v =? ENABLE) then
    modify (set_verbose v);; ret 0
  else
    dprint stderr (cs "ERROR: Invalid verbosity value." ++ [LF]) [];;
    exit 1.

Definition GetColorfulness : M Z := gets colorfulness.

Definition SetColorfulness (c : Z) : M Z :=
  if (c =? DISABLE) || (c =? ENABLE) then
    modify (set_colorfulness c);; ret 0
  else
    dprint stderr (cs "ERROR: Invalid colorfulness value." ++ [LF]) [];;
    exit 1.

(** [sizeof(file)] *)
Definition sizeof_file : nat := 32.

Definition GetFilename : M text := gets (fun w => c_str (file w)).

(** [newFilename] is [None] for the null pointer. *)
Definition SetFilename (newFilename : option text) : M Z :=
  match newFilename with
  | Some s =>
      modify (fun w => set_file (strncpy (file w) s (sizeof_file - 1)) w);;
      ret 0
  | None => ret (-1)
  end.

Definition GetAutoNewline : M Z := gets autoNewline.

Definition SetAutoNewline (a : Z) : M Z :=
  if (a =? ENABLE) || (a =? DISABLE) then
    modify (set_autoNewline a);; ret 0
  else
    dprint stderr (cs "ERROR: Invalid auto newline value." ++ [LF]) [];;
    exit 1.

Definition GetShowTrace : M Z := gets showTrace.

Definition SetShowTrace (s : Z) : M Z :=
  if (s =? ENABLE) || (s =? DISABLE) then
    modify (set_showTrace s);; ret 0
  else
    dprint stderr (cs "ERROR: Invalid show trace value." ++ [LF]) [];;
    exit 1.

Definition SetStream (streamType : Z) (newStream : FILE_ptr) : M Z :=
  if (STANDARD <=? streamType) && (streamType <=? ERROR) then
    modify (fun w => set_streams (<[Z.to_nat streamType := newStream]> (streams w)) w);;
    ret 0
  else
    dprint stderr (cs "ERROR: Invalid stream type. See PrintType enum.") [];;
    exit 1.

Definition GetStream (streamType : Z) : M FILE_ptr :=
  if (STANDARD <=? streamType) && (streamType <=? ERROR) then
    gets (fun w => streams w !!! Z.to_nat streamType)
  else
    ret NULL.

Definition DisplayLock : M Z :=
  l <- gets isLocked;;
  when (negb (truthy l)) pthread_mutex_lock;;
  modify (set_isLocked 1);;
  ret 0.

Definition DisplayUnlock : M Z :=
  l <- gets isLocked;;
  when (truthy l) pthread_mutex_unlock;;
  modify (set_isLocked 0);;
  ret 0.

(** One value returned by [getopt_long] in the loop of line 193. *)
Definition parse_option (opt : ascii) : M unit :=
  if Ascii.eqb opt "s" then SetVerbose DISABLE;; ret tt
  else if Ascii.eqb opt "n" then SetColorfulness DISABLE;; ret tt
  else ret tt.

Fixpoint parse_options (opts : list ascii) : M unit :=
  match opts with
  | [] => ret tt
  | opt :: rest => parse_option opt;; parse_options rest
  end.

(** [__InitializeDisplay(filename, argc, argv)], lines 166 to 213.  What the
    C library answers is given: [stdout_isatty] and [stderr_isatty] are the
    results of the two [isatty] calls, [opts] the values [getopt_long]
    returns before -1, and [base] the result of [basename(filename)]. *)
Definition __InitializeDisplay (stdout_isatty stderr_isatty : bool)
    (opts : list ascii) (base : text) : M Z :=
  when (negb stdout_isatty) (modify (set_stdoutToFile 1));;
  when (negb stderr_isatty) (modify (set_stderrToFile 1));;
  SetVerbose ENABLE;;
  SetColorfulness ENABLE;;
  SetStream STANDARD stdout;;
  SetStream WARNING stderr;;
  SetStream ERROR stderr;;
  parse_options opts;;
  modify (fun w => set_file (snprintf_s (file w) (sizeof_file - 1) base) w);;
  ret 0.

(** [__Display(function, type, fd, color, format, ...)], lines 224 to 284.
    [now] is what [localtime] answers at line 251. *)
Definition __Display (function : text) (type : Z) (fd : FILE_ptr)
    (color format : text) (args : list va_arg) (now : tm) : M unit :=
  l <- gets isLocked;;
  when (negb (truthy l)) pthread_mutex_lock;;
  old_colorfulness <- GetColorfulness;;
  toOut <- gets stdoutToFile;;
  toErr <- gets stderrToFile;;
  when ((truthy toOut && (type =? STANDARD))
        || (truthy toErr && ((type =? WARNING) || (type =? ERROR))))
    (SetColorfulness DISABLE;; ret tt);;
  stream <- (if type =? CUSTOM then ret fd else GetStream type);;
  modify (set_timestamp (strftime_T now));;
  sT <- gets showTrace;;
  when (truthy sT)
    (c <- gets colorfulness;;
     ts <- gets timestamp;;
     f <- gets (fun w => c_str (file w));;
     if truthy c then
       dprint stream (cs "%s[%s][%s][%s]") [VStr color; VStr ts; VStr f; VStr function]
     else
       dprint stream (cs "[%s][%s][%s]") [VStr ts; VStr f; VStr function]);;
  (if type =? ERROR then dprint stream (cs "[ERROR] ") []
   else if type =? WARNING then dprint stream (cs "[WARNING] ") []
   else sT <- gets showTrace;; when (truthy sT) (dprint stream (cs " ") []));;
  match vsnprintf (BUFFLEN - 1) format args with
  | None => undefined
  | Some tmpBuffer =>
      dprint stream tmpBuffer [];;
      c <- gets colorfulness;;
      when (truthy c) (dprint stream RESET []);;
      a <- gets autoNewline;;
      when (truthy a) (dprint stream [LF] []);;
      SetColorfulness old_colorfulness;;
      l <- gets isLocked;;
      when (negb (truthy l)) pthread_mutex_unlock
  end.

(** ** Display.h: the logging macros *)

(** [function] stands for [__FUNCTION__] at the place of the call. *)
Definition Display (function format : text) (args : list va_arg) (now : tm) : M unit :=
  v <- gets verbose;;
  if truthy v then __Display function STANDARD NULL RESET format args now
  else ret tt.

Definition DisplayWarning (function format : text) (args : list va_arg) (now : tm) : M unit :=
  __Display function WARNING NULL (BOLD ++ YELLOW) format args now.

Definition DisplayError (function format : text) (args : list va_arg) (now : tm) : M unit :=
  __Display function ERROR NULL (BOLD ++ RED) format args now.

Definition DisplayColor (function color format : text) (args : list va_arg) (now : tm) : M unit :=
  v <- gets verbose;;
  if truthy v then __Display function STANDARD NULL color format args now
  else ret tt.

Definition DisplayFile (function : text) (fd : FILE_ptr) (format : text)
    (args : list va_arg) (now : tm) : M unit :=
  __Display function CUSTOM fd RESET format args now.

(** ** Reading a trace *)

(** Everything written to [stream], in order. *)
Fixpoint written_to (stream : FILE_ptr) (t : list event) : text :=
  match t with
  | [] => []
  | EvWrite f s :: rest =>
      if decide (f = stream) then s ++ written_to stream rest
      else written_to stream rest
  | _ :: rest => written_to stream rest
  end.

(** ** What one call of [__Display] does *)

(** The test of lines 235 and 236. *)
Definition redirected (type : Z) (w : world) : bool :=
  (truthy (stdoutToFile w) && (type =? STANDARD))
  || (truthy (stderrToFile w) && ((type =? WARNING) || (type =? ERROR))).

(** The value of [colorfulness] between line 237 and line 279. *)
Definition call_colorfulness (type : Z) (w : world) : Z :=
  if redirected type w then DISABLE else colorfulness w.

(** The stream of lines 240 to 244. *)
Definition resolved (type : Z) (fd : FILE_ptr) (w : world) : FILE_ptr :=
  if type =? CUSTOM then fd
  else if (STANDARD <=? type) && (type <=? ERROR) then streams w !!! Z.to_nat type
  else NULL.

Definition header_text (function color : text) (now : tm) (c : Z) (w : world) : text :=
  take 254 ((if truthy c then color else [])
            ++ cs "[" ++ strftime_T now ++ cs "][" ++ c_str (file w)
            ++ cs "][" ++ function ++ cs "]").

Definition header_events (stream : FILE_ptr) (function color : text) (now : tm)
    (c : Z) (w : world) : list event :=
  if truthy (showTrace w) then [EvWrite stream (header_text function color now c w)]
  else [].

Definition tag_events (stream : FILE_ptr) (type : Z) (w : world) : list event :=
  if type =? ERROR then [EvWrite stream (cs "[ERROR] ")]
  else if type =? WARNING then [EvWrite stream (cs "[WARNING] ")]
  else if truthy (showTrace w) then [EvWrite stream (cs " ")]
  else [].

Definition reset_events (stream : FILE_ptr) (c : Z) : list event :=
  if truthy c then [EvWrite stream RESET] else [].

Definition newline_events (stream : FILE_ptr) (w : world) : list event :=
  if truthy (autoNewline w) then [EvWrite stream [LF]] else [].

(** The writes of one call, [out] being what line 271 writes. *)
Definition Display_writes (function : text) (type : Z) (fd : FILE_ptr)
    (color : text) (now : tm) (out : text) (w : world) : list event :=
  let stream := resolved type fd w in
  let c := call_colorfulness type w in
  header_events stream function color now c w
  ++ tag_events stream type w
  ++ [EvWrite stream out]
  ++ reset_events stream c
  ++ newline_events stream w.

Definition Display_events (function : text) (type : Z) (fd : FILE_ptr)
    (color : text) (now : tm) (out : text) (w : world) : list event :=
  (if truthy (isLocked w) then [] else [EvLock])
  ++ Display_writes function type fd color now out w
  ++ (if truthy (isLocked w) then [] else [EvUnlock]).

(** ** Well-formed worlds *)

(** What holds of the variables between two calls of the library: the flag
    [colorfulness] has one of its two values, the thread holds the mutex
    exactly when it took it by hand, and the two arrays have their size, the
    last cell of [file] being the NUL it was initialised with. *)
Record wf (w : world) : Prop := mk_wf {
  wf_colorfulness : colorfulness w = DISABLE \/ colorfulness w = ENABLE;
  wf_lock : consoleLock w = truthy (isLocked w);
  wf_streams : length (streams w) = 3%nat;
  wf_file : length (file w) = sizeof_file;
  wf_file_end : drop (sizeof_file - 1) (file w) = [NUL]
}.

(** ** Observations *)

(** The process has ended with status 1 after one line on [stderr], which
    is all that has happened since [w]. *)
Definition fatal (msg : text) (w : world) (o : outcome Z) : Prop :=
  exists w', o = Exit 1 w' /\ trace w' = trace w ++ [EvWrite stderr msg]
             /\ verbose w' = verbose w /\ colorfulness w' = colorfulness w
             /\ showTrace w' = showTrace w /\ autoNewline w' = autoNewline w
             /\ streams w' = streams w.

(** A text that [dprint] writes as it is: no [%] and no more than the
    buffer takes. *)
Definition plain (msg : text) : bool :=
  forallb (fun c => negb (Ascii.eqb c "%")) msg && (length msg <=? 254)%nat.

(** The call has returned, and since [w] it has written [tag] and then
    [out] to [stream], among the events of one call. *)
Definition tagged_output (stream : FILE_ptr) (tag out : text) (w : world)
    (o : outcome unit) : Prop :=
  exists w' before after,
    o = Ret tt w'
    /\ trace w' = trace w ++ before ++ EvWrite stream tag :: EvWrite stream out :: after.

(** The claim about the label as the specification words it for a null or
    empty input: an error is returned and the label is as before. *)
Definition label_refused (newFilename : option text) (w : world) : Prop :=
  exists r w', SetFilename newFilename w = Ret r w' /\ r <> 0
               /\ c_str (file w') = c_str (file w).

(** A function keeps worlds well formed when it returns. *)
Definition preserves_wf {A} (m : M A) : Prop :=
  forall (w w' : world) (a : A), wf w -> m w = Ret a w' -> wf w'.

(** ** Worlds of [demo.c] *)

(** The world after [InitializeDisplay(argc, argv)] in [demo.c], run on a
    terminal without options. *)
Definition ready : world :=
  {| verbose := ENABLE;
     colorfulness := ENABLE;
     file := cs "demo.c" ++ replicate 26 NUL;
     autoNewline := ENABLE;
     showTrace := ENABLE;
     streams := [stdout; stderr; stderr];
     stdoutToFile := 0;
     stderrToFile := 0;
     isLocked := 0;
     timestamp := [];
     consoleLock := false;
     trace := [] |}.

Definition noon : tm := mk_tm 12 0 0.

(** The lock taken by hand once. *)
Definition held : world := set_isLocked 1 (emit EvLock (set_consoleLock true ready)).

(** The world after SetShowTrace(DISABLE). *)
Definition traceless : world := set_showTrace DISABLE ready.

(** The world after SetVerbose(DISABLE), or after a start with -s. *)
Definition silent : world := set_verbose DISABLE ready.

(** The world of a program started with its standard output in a file. *)
Definition to_file : world := set_stdoutToFile 1 ready.

(** ** What [__InitializeDisplay] leaves *)

(** [getopt_long] has returned [o] at least once. *)
Definition opt_given (o : ascii) (opts : list ascii) : bool :=
  existsb (Ascii.eqb o) opts.

(** The world that lines 171 to 211 make of [w]. *)
Definition initialized (stdout_isatty stderr_isatty : bool) (opts : list ascii)
    (base : text) (w : world) : world :=
  {| verbose := if opt_given "s" opts then DISABLE else ENABLE;
     colorfulness := if opt_given "n" opts then DISABLE else ENABLE;
     file := snprintf_s (file w) (sizeof_file - 1) base;
     autoNewline := autoNewline w;
     showTrace := showTrace w;
     streams := <[2%nat := stderr]> (<[1%nat := stderr]> (<[0%nat := stdout]> (streams w)));
     stdoutToFile := if stdout_isatty then stdoutToFile w else 1;
     stderrToFile := if stderr_isatty then stderrToFile w else 1;
     isLocked := isLocked w;
     timestamp := timestamp w;
     consoleLock := consoleLock w;
     trace := trace w |}.

(** An event that is a write. *)
Definition is_write (e : event) : Prop := exists f x, e = EvWrite f x.

(** A local time as [localtime] gives it. *)
Definition valid_tm (t : tm) : Prop :=
  0 <= tm_hour t < 24 /\ 0 <= tm_min t < 60 /\ 0 <= tm_sec t <= 60.

(** The text of the category tag of lines 263 to 265. *)
Definition tag_text (type : Z) (w : world) : text :=
  if type =? ERROR then cs "[ERROR] "
  else if type =? WARNING then cs "[WARNING] "
  else if truthy (showTrace w) then cs " "
  else [].

(** * Properties *)

Lemma startup_wf : wf startup.
Proof. split; cbn; auto. Qed.

Lemma ready_wf : wf ready.
Proof. split; cbn; auto. Qed.

Lemma InitializeDisplay_ready :
  __InitializeDisplay true true [] (cs "demo.c") startup = Ret 0 ready.
Proof. reflexivity. Qed.

(** ** The printf family *)

(** A format without [%] is printed as it is. *)
Lemma format_output_plain (s : text) :
  "%"%char ∉ s -> format_output s [] = Some s.
Proof.
  induction s as [|c s IH]; intros Hs; [reflexivity|].
  apply not_elem_of_cons in Hs as [Hc Hs]. cbn.
  destruct (Ascii.eqb c "%") eqn:E.
  - apply Ascii.eqb_eq in E. congruence.
  - rewrite IH by assumption. reflexivity.
Qed.

Lemma vsnprintf_length (size : Z) (format : text) (args : list va_arg) (s : text) :
  vsnprintf size format args = Some s -> (length s <= Z.to_nat (size - 1))%nat.
Proof.
  unfold vsnprintf. destruct (format_output format args); cbn; [|discriminate].
  intros [= <-]. rewrite length_take. lia.
Qed.

(** Printing again what [vsnprintf] left in a buffer of the same size
    changes nothing when it holds no [%]. *)
Lemma vsnprintf_again (size : Z) (format : text) (args : list va_arg) (s : text) :
  vsnprintf size format args = Some s -> "%"%char ∉ s ->
  vsnprintf size s [] = Some s.
Proof.
  intros H Hs. unfold vsnprintf. rewrite format_output_plain by assumption.
  cbn. f_equal. apply take_ge. eapply vsnprintf_length, H.
Qed.

(** ** Running [__Display] *)

Lemma fprintf_s_ok (stream : FILE_ptr) (s : text) (w : world) :
  stream <> NULL -> fprintf_s stream s w = Ret tt (emit (EvWrite stream s) w).
Proof. destruct stream; [congruence | reflexivity ..]. Qed.

Lemma resolved_type (type : Z) (fd : FILE_ptr) (w : world) :
  resolved type fd w <> NULL ->
  type = STANDARD \/ type = WARNING \/ type = ERROR \/ type = CUSTOM.
Proof.
  unfold resolved, STANDARD, WARNING, ERROR, CUSTOM.
  destruct (type =? 3) eqn:E3; [lia|].
  destruct ((0 <=? type) && (type <=? 2)) eqn:E; [lia | congruence].
Qed.

Lemma bind_eq {A B} (m : M A) (k : A -> M B) (w w' : world) (a : A) :
  m w = Ret a w' -> bind m k w = k a w'.
Proof. unfold bind. intros ->. reflexivity. Qed.

Lemma bind_gets {A B} (f : world -> A) (k : A -> M B) (w : world) :
  bind (gets f) k w = k (f w) w.
Proof. reflexivity. Qed.

Lemma bind_modify {B} (f : world -> world) (k : unit -> M B) (w : world) :
  bind (modify f) k w = k tt (f w).
Proof. reflexivity. Qed.

(** Reading the fields of a world that is written out, innermost update
    first. *)
Ltac fields :=
  cbv beta iota delta
    [emit emits set_verbose set_colorfulness set_file set_autoNewline
     set_showTrace set_streams set_stdoutToFile set_stderrToFile
     set_isLocked set_timestamp set_consoleLock set_trace
     verbose colorfulness file autoNewline showTrace streams stdoutToFile
     stderrToFile isLocked timestamp consoleLock trace] in *.

Lemma emits_nil (w : world) : emits [] w = w.
Proof. destruct w; unfold emits, set_trace; cbn. rewrite app_nil_r. reflexivity. Qed.

(** Line 231. *)
Lemma acquire_run (w : world) :
  consoleLock w = truthy (isLocked w) ->
  when (negb (truthy (isLocked w))) pthread_mutex_lock w
  = Ret tt (set_consoleLock true
              (emits (if truthy (isLocked w) then [] else [EvLock]) w)).
Proof.
  intros H. unfold when. destruct (truthy (isLocked w)); cbn [negb].
  - rewrite emits_nil. destruct w; cbn in H; subst; reflexivity.
  - unfold pthread_mutex_lock. rewrite H. reflexivity.
Qed.

(** Lines 235 to 237. *)
Lemma suppress_run (type : Z) (w : world) :
  when (redirected type w) (SetColorfulness DISABLE;; ret tt) w
  = Ret tt (set_colorfulness (call_colorfulness type w) w).
Proof.
  unfold call_colorfulness. destruct (redirected type w), w; reflexivity.
Qed.

(** Lines 240 to 244. *)
Lemma resolve_run (type : Z) (fd : FILE_ptr) (w : world) :
  (if type =? CUSTOM then ret fd else GetStream type) w = Ret (resolved type fd w) w.
Proof.
  unfold resolved, GetStream. destruct (type =? CUSTOM); [reflexivity|].
  destruct ((STANDARD <=? type) && (type <=? ERROR)); reflexivity.
Qed.

(** The writes of a call, on a stream that is not null. *)
Section Writes.

Variable stream : FILE_ptr.
Hypothesis stream_ok : stream <> NULL.

Lemma dprint_run (format : text) (args : list va_arg) (s : text) (w : world) :
  vsnprintf (BUFFLEN - 1) format args = Some s ->
  dprint stream format args w = Ret tt (emits [EvWrite stream s] w).
Proof. intros Hf. unfold dprint. rewrite Hf. apply fprintf_s_ok, stream_ok. Qed.

(** Lines 255 to 261. *)
Lemma header_run (function color : text) (now : tm) (w : world) :
  timestamp w = strftime_T now ->
  when (truthy (showTrace w))
    (c <- gets colorfulness;;
     ts <- gets timestamp;;
     f <- gets (fun w => c_str (file w));;
     if truthy c then
       dprint stream (cs "%s[%s][%s][%s]")
         [VStr color; VStr ts; VStr f; VStr function]
     else
       dprint stream (cs "[%s][%s][%s]") [VStr ts; VStr f; VStr function]) w
  = Ret tt (emits (header_events stream function color now (colorfulness w) w) w).
Proof.
  intros Ht. unfold header_events, header_text, when.
  destruct (truthy (showTrace w)); [|rewrite emits_nil; reflexivity].
  rewrite !bind_gets, Ht.
  destruct (truthy (colorfulness w)); apply dprint_run; reflexivity.
Qed.

(** Lines 263 to 265. *)
Lemma tag_run (type : Z) (w : world) :
  (if type =? ERROR then dprint stream (cs "[ERROR] ") []
   else if type =? WARNING then dprint stream (cs "[WARNING] ") []
   else sT <- gets showTrace;; when (truthy sT) (dprint stream (cs " ") [])) w
  = Ret tt (emits (tag_events stream type w) w).
Proof.
  unfold tag_events.
  destruct (type =? ERROR); [apply dprint_run; reflexivity|].
  destruct (type =? WARNING); [apply dprint_run; reflexivity|].
  rewrite bind_gets. unfold when.
  destruct (truthy (showTrace w)); [apply dprint_run; reflexivity|].
  rewrite emits_nil; reflexivity.
Qed.

(** Lines 274 and 275. *)
Lemma reset_run (w : world) :
  when (truthy (colorfulness w)) (dprint stream RESET []) w
  = Ret tt (emits (reset_events stream (colorfulness w)) w).
Proof.
  unfold reset_events, when.
  destruct (truthy (colorfulness w)); [apply dprint_run; reflexivity|].
  rewrite emits_nil; reflexivity.
Qed.

(** Line 277. *)
Lemma newline_run (w : world) :
  when (truthy (autoNewline w)) (dprint stream [LF] []) w
  = Ret tt (emits (newline_events stream w) w).
Proof.
  unfold newline_events, when.
  destruct (truthy (autoNewline w)); [apply dprint_run; reflexivity|].
  rewrite emits_nil; reflexivity.
Qed.

End Writes.

(** Line 279. *)
Lemma restore_run (old : Z) (w : world) :
  old = DISABLE \/ old = ENABLE ->
  SetColorfulness old w = Ret 0 (set_colorfulness old w).
Proof. intros [-> | ->]; reflexivity. Qed.

(** Line 281. *)
Lemma release_run (w : world) :
  consoleLock w = true ->
  when (negb (truthy (isLocked w))) pthread_mutex_unlock w
  = Ret tt (set_consoleLock (truthy (isLocked w))
              (emits (if truthy (isLocked w) then [] else [EvUnlock]) w)).
Proof.
  intros H. unfold when. destruct (truthy (isLocked w)); cbn [negb].
  - rewrite emits_nil. destruct w; cbn in H; subst; reflexivity.
  - unfold pthread_mutex_unlock. rewrite H. reflexivity.
Qed.

(** A call of [__Display] in a well-formed world, on a stream that is not
    null, with a format that suits its arguments ([body] is what line 269
    leaves in [tmpBuffer]) and a body that [dprint] can take as a format
    ([out] is what line 271 writes), returns: it has stamped the time and
    performed the events of [Display_events], and every other variable is as
    before. *)
Lemma Display_run (function : text) (type : Z) (fd : FILE_ptr)
    (color format : text) (args : list va_arg) (now : tm)
    (body out : text) (w : world) :
  wf w ->
  resolved type fd w <> NULL ->
  vsnprintf (BUFFLEN - 1) format args = Some body ->
  vsnprintf (BUFFLEN - 1) body [] = Some out ->
  __Display function type fd color format args now w
  = Ret tt (set_trace (trace w ++ Display_events function type fd color now out w)
              (set_timestamp (strftime_T now) w)).
Proof.
  intros [Hc Hl _ _ _] Hr Hb Ho.
  unfold __Display, GetColorfulness. rewrite Hb.
  set (r := resolved type fd w) in *.
  rewrite bind_gets; cbv beta.
  erewrite bind_eq by (apply acquire_run; exact Hl).
  rewrite !bind_gets; cbv beta.
  erewrite bind_eq by (apply (suppress_run type)).
  erewrite bind_eq by (apply (resolve_run type fd)).
  replace (resolved type fd _) with r by reflexivity.
  rewrite bind_modify, bind_gets; cbv beta.
  erewrite bind_eq by (apply header_run; [exact Hr | reflexivity]).
  erewrite bind_eq by (apply tag_run; exact Hr).
  erewrite bind_eq by (apply dprint_run; [exact Hr | exact Ho]).
  rewrite bind_gets; cbv beta.
  erewrite bind_eq by (apply reset_run; exact Hr).
  rewrite bind_gets; cbv beta.
  erewrite bind_eq by (apply newline_run; exact Hr).
  erewrite bind_eq by (apply restore_run; exact Hc).
  rewrite bind_gets; cbv beta.
  rewrite release_run by reflexivity.
  f_equal.
  unfold Display_events, Display_writes, header_events, tag_events,
    reset_events, newline_events, header_text, call_colorfulness, redirected.
  fold r. clearbody r.
  destruct w as [v c f a sT ss oF eF l ts cl tr]; fields. subst cl.
  rewrite <- !app_assoc. reflexivity.
Qed.

(** ** The flags *)

Lemma flag_values (v : Z) :
  v = DISABLE \/ v = ENABLE ->
  (v =? DISABLE) || (v =? ENABLE) = true /\ (v =? ENABLE) || (v =? DISABLE) = true.
Proof. intros [-> | ->]; split; reflexivity. Qed.

Lemma not_flag_values (v : Z) :
  v <> DISABLE -> v <> ENABLE ->
  (v =? DISABLE) || (v =? ENABLE) = false /\ (v =? ENABLE) || (v =? DISABLE) = false.
Proof. unfold DISABLE, ENABLE. intros H0 H1. split; lia. Qed.

(** C5. For each of the four flags (verbose, colorfulness, showTrace,
    autoNewline) and each of the two values DISABLE and ENABLE, the setter
    called with that value returns, and the getter called next returns that
    value. *)
Theorem C5_setter_then_getter (v : Z) (w : world) :
  v = DISABLE \/ v = ENABLE ->
  (SetVerbose v;; GetVerbose) w = Ret v (set_verbose v w)
  /\ (SetColorfulness v;; GetColorfulness) w = Ret v (set_colorfulness v w)
  /\ (SetShowTrace v;; GetShowTrace) w = Ret v (set_showTrace v w)
  /\ (SetAutoNewline v;; GetAutoNewline) w = Ret v (set_autoNewline v w).
Proof.
  intros Hv. destruct (flag_values v Hv) as [H1 H2].
  unfold SetVerbose, SetColorfulness, SetShowTrace, SetAutoNewline.
  rewrite H1, H2. repeat split; reflexivity.
Qed.

Lemma C5_setter_then_getter_witness :
  (SetVerbose DISABLE;; GetVerbose) ready = Ret DISABLE (set_verbose DISABLE ready)
  /\ (SetColorfulness DISABLE;; GetColorfulness) ready
     = Ret DISABLE (set_colorfulness DISABLE ready)
  /\ (SetShowTrace DISABLE;; GetShowTrace) ready
     = Ret DISABLE (set_showTrace DISABLE ready)
  /\ (SetAutoNewline DISABLE;; GetAutoNewline) ready
     = Ret DISABLE (set_autoNewline DISABLE ready).
Proof. apply (C5_setter_then_getter DISABLE ready). left. reflexivity. Defined.

Lemma diagnostic_fatal (msg : text) (w : world) :
  "%"%char ∉ msg -> (length msg <= 254)%nat ->
  fatal msg w ((dprint stderr msg [];; exit 1) w).
Proof.
  intros Hp Hl. exists (emits [EvWrite stderr msg] w). split.
  - erewrite bind_eq; [reflexivity|]. apply dprint_run; [discriminate|].
    unfold vsnprintf. rewrite format_output_plain by assumption. cbn.
    f_equal. apply take_ge. exact Hl.
  - destruct w; repeat split; reflexivity.
Qed.

Lemma plain_spec (msg : text) :
  plain msg = true -> ("%"%char ∉ msg) /\ (length msg <= 254)%nat.
Proof.
  unfold plain. rewrite andb_true_iff, forallb_forall, Nat.leb_le.
  intros [Hp Hl]. split; [|exact Hl].
  intros Hin. apply list_elem_of_In, Hp in Hin.
  rewrite Ascii.eqb_refl in Hin. discriminate.
Qed.

Lemma plain_fatal (msg : text) (w : world) :
  plain msg = true -> fatal msg w ((dprint stderr msg [];; exit 1) w).
Proof. intros H. apply plain_spec in H as [? ?]. apply diagnostic_fatal; assumption. Qed.

(** C6. For each of the four flag setters and each value other than DISABLE
    and ENABLE, the call ends the process with status 1 after writing its
    diagnostic to stderr, and every flag has then the value it had before
    the call. *)
Theorem C6_invalid_flag_is_fatal (v : Z) (w : world) :
  v <> DISABLE -> v <> ENABLE ->
  fatal (cs "ERROR: Invalid verbosity value." ++ [LF]) w (SetVerbose v w)
  /\ fatal (cs "ERROR: Invalid colorfulness value." ++ [LF]) w (SetColorfulness v w)
  /\ fatal (cs "ERROR: Invalid show trace value." ++ [LF]) w (SetShowTrace v w)
  /\ fatal (cs "ERROR: Invalid auto newline value." ++ [LF]) w (SetAutoNewline v w).
Proof.
  intros H0 H1. destruct (not_flag_values v H0 H1) as [E1 E2].
  unfold SetVerbose, SetColorfulness, SetShowTrace, SetAutoNewline.
  rewrite E1, E2. repeat split; apply plain_fatal; reflexivity.
Qed.

Lemma C6_invalid_flag_is_fatal_witness :
  fatal (cs "ERROR: Invalid verbosity value." ++ [LF]) ready (SetVerbose 2 ready)
  /\ fatal (cs "ERROR: Invalid colorfulness value." ++ [LF]) ready
       (SetColorfulness 2 ready)
  /\ fatal (cs "ERROR: Invalid show trace value." ++ [LF]) ready
       (SetShowTrace 2 ready)
  /\ fatal (cs "ERROR: Invalid auto newline value." ++ [LF]) ready
       (SetAutoNewline 2 ready).
Proof. apply (C6_invalid_flag_is_fatal 2 ready); discriminate. Defined.

(** ** The manual lock *)

Lemma set_isLocked_same (w : world) (l : Z) : isLocked w = l -> set_isLocked l w = w.
Proof. intros <-. destruct w; reflexivity. Qed.

(** C7. A call of DisplayLock while the lock is held by hand (isLocked is
    not zero) returns without taking the mutex: the trace and the mutex are
    as before and isLocked is 1.  So two calls in a row on a free mutex
    return, having locked it once.  A call of DisplayUnlock while the lock
    is not held by hand changes nothing. *)
Theorem C7_manual_lock_idempotent (w : world) :
  (isLocked w <> 0 ->
   exists w', DisplayLock w = Ret 0 w' /\ trace w' = trace w
              /\ consoleLock w' = consoleLock w /\ isLocked w' = 1)
  /\ (isLocked w = 0 -> consoleLock w = false ->
      exists w', (DisplayLock;; DisplayLock) w = Ret 0 w'
                 /\ trace w' = trace w ++ [EvLock]
                 /\ consoleLock w' = true /\ isLocked w' = 1)
  /\ (isLocked w = 0 -> DisplayUnlock w = Ret 0 w).
Proof.
  unfold DisplayLock, DisplayUnlock. split; [|split].
  - intros Hl. exists (set_isLocked 1 w). split; [|destruct w; auto].
    rewrite bind_gets. unfold truthy.
    replace (isLocked w =? 0) with false by lia. reflexivity.
  - intros Hl Hc. exists (set_isLocked 1 (emit EvLock (set_consoleLock true w))).
    split; [|destruct w; auto].
    unfold bind at 1. rewrite bind_gets, Hl. cbn [truthy Z.eqb negb when].
    unfold bind at 1, pthread_mutex_lock. rewrite Hc. reflexivity.
  - intros Hl. rewrite bind_gets, Hl. cbn [truthy Z.eqb negb when].
    unfold bind, ret, modify. f_equal. apply set_isLocked_same, Hl.
Qed.

Lemma DisplayLock_ready : DisplayLock ready = Ret 0 held.
Proof. reflexivity. Qed.

Lemma C7_manual_lock_idempotent_witness :
  (exists w', DisplayLock held = Ret 0 w' /\ trace w' = trace held
              /\ consoleLock w' = consoleLock held /\ isLocked w' = 1)
  /\ (exists w', (DisplayLock;; DisplayLock) ready = Ret 0 w'
                 /\ trace w' = trace ready ++ [EvLock]
                 /\ consoleLock w' = true /\ isLocked w' = 1)
  /\ DisplayUnlock ready = Ret 0 ready.
Proof.
  split; [|split].
  - apply (C7_manual_lock_idempotent held). discriminate.
  - apply (C7_manual_lock_idempotent ready); reflexivity.
  - apply (C7_manual_lock_idempotent ready). reflexivity.
Defined.

(** ** The streams *)

Lemma stream_range (streamType : Z) :
  streamType < STANDARD \/ ERROR < streamType ->
  (STANDARD <=? streamType) && (streamType <=? ERROR) = false.
Proof. unfold STANDARD, ERROR. lia. Qed.

(** C10. For a category outside STANDARD, WARNING and ERROR, CUSTOM among
    them, GetStream returns the null stream and the process goes on, while
    SetStream ends the process with status 1 after its diagnostic. *)
Theorem C10_GetStream_out_of_range (streamType : Z) (newStream : FILE_ptr) (w : world) :
  streamType < STANDARD \/ ERROR < streamType ->
  GetStream streamType w = Ret NULL w
  /\ fatal (cs "ERROR: Invalid stream type. See PrintType enum.") w
       (SetStream streamType newStream w).
Proof.
  intros H. apply stream_range in H. unfold GetStream, SetStream. rewrite H.
  split; [reflexivity|]. apply plain_fatal. reflexivity.
Qed.

Lemma C10_GetStream_out_of_range_witness :
  GetStream CUSTOM ready = Ret NULL ready
  /\ fatal (cs "ERROR: Invalid stream type. See PrintType enum.") ready
       (SetStream CUSTOM (fopened 0) ready).
Proof.
  apply (C10_GetStream_out_of_range CUSTOM (fopened 0) ready).
  right. reflexivity.
Defined.

(** ** The label *)

Lemma c_str_no_NUL (buf : list ascii) : NUL ∉ c_str buf.
Proof.
  induction buf as [|c buf IH]; cbn; [apply not_elem_of_nil|].
  destruct (Ascii.eqb c NUL) eqn:E; [apply not_elem_of_nil|].
  apply not_elem_of_cons. split; [|exact IH].
  intros <-. rewrite Ascii.eqb_refl in E. discriminate.
Qed.

Lemma c_str_until_NUL (s rest : list ascii) :
  NUL ∉ s -> c_str (s ++ NUL :: rest) = s.
Proof.
  induction s as [|c s IH]; intros Hs; [reflexivity|].
  apply not_elem_of_cons in Hs as [Hc Hs]. cbn.
  destruct (Ascii.eqb c NUL) eqn:E.
  - apply Ascii.eqb_eq in E. congruence.
  - rewrite IH by assumption. reflexivity.
Qed.

Lemma c_str_fixed (s : list ascii) : NUL ∉ s -> c_str s = s.
Proof.
  intros Hs. rewrite <- (c_str_until_NUL s []) at 2 by assumption.
  induction s as [|c s IH]; [reflexivity|].
  apply not_elem_of_cons in Hs as [Hc Hs]. cbn.
  destruct (Ascii.eqb c NUL); [reflexivity|]. rewrite <- IH by assumption.
  reflexivity.
Qed.

Lemma take_no_NUL (n : nat) (s : list ascii) : NUL ∉ s -> NUL ∉ take n s.
Proof.
  intros Hs Hin. apply elem_of_take in Hin as (i & Hi & _).
  apply Hs, list_elem_of_lookup. exists i. exact Hi.
Qed.

(** What [file] holds after [strncpy(file, src, n)] when the cell after the
    first [n] is a NUL: the first [n] characters of [src]. *)
Lemma c_str_strncpy (dst : list ascii) (src : text) (n : nat) :
  drop n dst = [NUL] ->
  c_str (strncpy dst src n) = take n (c_str src).
Proof.
  intros Hd. unfold strncpy. rewrite Hd.
  destruct (decide (n <= length (c_str src))%nat) as [Hn | Hn].
  - rewrite take_app_le by exact Hn.
    apply c_str_until_NUL, take_no_NUL, c_str_no_NUL.
  - rewrite take_app_ge, take_replicate by lia.
    replace ((n - length (c_str src)) `min` n)%nat
      with (S (n - length (c_str src) - 1)) by lia.
    cbn [replicate]. rewrite <- app_assoc. cbn [app].
    rewrite c_str_until_NUL by apply c_str_no_NUL.
    symmetry. apply take_ge. lia.
Qed.

(** An empty label is taken: the call returns 0 and the label is empty. *)
Lemma C9_empty_label_is_stored : ~ label_refused (Some []) ready.
Proof.
  intros (r & w' & H & Hr & _). vm_compute in H. congruence.
Qed.

(** C9, amended. Given the null pointer, SetFilename returns -1 and changes
    nothing. Given any string, the empty one included, it returns 0 and the
    label is then the first 31 characters of that string: a longer string is
    cut to 31 characters and an empty one empties the label. Nothing else
    changes. *)
Theorem C9_label_setter (w : world) :
  wf w ->
  SetFilename None w = Ret (-1) w
  /\ forall s : text,
       SetFilename (Some s) w
       = Ret 0 (set_file (strncpy (file w) s (sizeof_file - 1)) w)
       /\ c_str (strncpy (file w) s (sizeof_file - 1)) = take 31 (c_str s).
Proof.
  intros Hw. split; [reflexivity|]. intros s. split; [reflexivity|].
  apply c_str_strncpy, Hw.
Qed.

Lemma C9_label_setter_witness :
  SetFilename None ready = Ret (-1) ready
  /\ forall s : text,
       SetFilename (Some s) ready
       = Ret 0 (set_file (strncpy (file ready) s (sizeof_file - 1)) ready)
       /\ c_str (strncpy (file ready) s (sizeof_file - 1)) = take 31 (c_str s).
Proof. apply (C9_label_setter ready). split; cbn; auto. Defined.

(** A label of 40 characters is cut to its first 31. *)
Example SetFilename_long :
  exists w', SetFilename (Some (cs "0123456789012345678901234567890123456789")) ready
             = Ret 0 w'
             /\ GetFilename w' = Ret (cs "0123456789012345678901234567890") w'.
Proof. eexists. split; reflexivity. Qed.

(** ** Where and what [__Display] writes *)

(** Every write of a call goes to the stream resolved for it. *)
Lemma Display_events_stream (function : text) (type : Z) (fd : FILE_ptr)
    (color : text) (now : tm) (out : text) (w : world) (f : FILE_ptr) (x : text) :
  EvWrite f x ∈ Display_events function type fd color now out w ->
  f = resolved type fd w.
Proof.
  unfold Display_events, Display_writes, header_events, tag_events,
    reset_events, newline_events.
  destruct (truthy (isLocked w)), (truthy (showTrace w)), (type =? ERROR),
    (type =? WARNING), (truthy (call_colorfulness type w)),
    (truthy (autoNewline w));
    cbn [app]; intros H;
    repeat (apply elem_of_cons in H as [H | H]; [congruence|]);
    apply elem_of_nil in H; contradiction.
Qed.

(** The body is among them. *)
Lemma Display_events_body (function : text) (type : Z) (fd : FILE_ptr)
    (color : text) (now : tm) (out : text) (w : world) :
  EvWrite (resolved type fd w) out ∈ Display_events function type fd color now out w.
Proof.
  unfold Display_events, Display_writes.
  rewrite !elem_of_app. right. left. right. right. left. apply list_elem_of_singleton.
  reflexivity.
Qed.

(** Without the trace a call writes the tag of a warning or of an error, the
    body, the reset sequence when [colorfulness] is on, and the newline:
    neither [function] nor [color] is written. *)
Lemma Display_writes_without_trace (function : text) (type : Z) (fd : FILE_ptr)
    (color : text) (now : tm) (out : text) (w : world) :
  showTrace w = DISABLE ->
  Display_writes function type fd color now out w
  = (if type =? ERROR then [EvWrite (resolved type fd w) (cs "[ERROR] ")]
     else if type =? WARNING then [EvWrite (resolved type fd w) (cs "[WARNING] ")]
     else [])
    ++ [EvWrite (resolved type fd w) out]
    ++ reset_events (resolved type fd w) (call_colorfulness type w)
    ++ newline_events (resolved type fd w) w.
Proof.
  intros H. unfold Display_writes, header_events, tag_events. rewrite H.
  reflexivity.
Qed.

(** A body without [%] is written as it was rendered. *)
Lemma Display_run_plain (function : text) (type : Z) (fd : FILE_ptr)
    (color format : text) (args : list va_arg) (now : tm) (body : text) (w : world) :
  wf w ->
  resolved type fd w <> NULL ->
  vsnprintf (BUFFLEN - 1) format args = Some body ->
  "%"%char ∉ body ->
  __Display function type fd color format args now w
  = Ret tt (set_trace (trace w ++ Display_events function type fd color now body w)
              (set_timestamp (strftime_T now) w)).
Proof.
  intros Hw Hr Hb Hp. eapply Display_run; eauto using vsnprintf_again.
Qed.

(** C1. The call Display("%s", "%%") of a program on a terminal: the body is
    rendered as the two characters of the argument, and the call writes one
    of them, since line 271 hands the rendered body to dprint as a format. *)
Theorem C1_body_is_formatted_again :
  vsnprintf (BUFFLEN - 1) (cs "%s") [VStr (cs "%%")] = Some (cs "%%")
  /\ Display (cs "main") (cs "%s") [VStr (cs "%%")] noon ready
     = Ret tt (set_trace
                 [EvLock;
                  EvWrite stdout (RESET ++ cs "[12:00:00][demo.c][main]");
                  EvWrite stdout (cs " ");
                  EvWrite stdout (cs "%");
                  EvWrite stdout RESET;
                  EvWrite stdout [LF];
                  EvUnlock]
                 (set_timestamp (cs "12:00:00") ready)).
Proof. split; vm_compute; reflexivity. Qed.

Lemma SetShowTrace_ready : SetShowTrace DISABLE ready = Ret 0 traceless.
Proof. reflexivity. Qed.

(** C2. The call Display("World!") with the trace disabled and colorfulness
    enabled, on a terminal: there is no header and no colour before the
    body, and the reset sequence of line 275 is written after it. *)
Theorem C2_reset_written_without_trace :
  showTrace traceless = DISABLE /\ colorfulness traceless = ENABLE
  /\ Display (cs "main") (cs "World!") [] noon traceless
     = Ret tt (set_trace
                 [EvLock;
                  EvWrite stdout (cs "World!");
                  EvWrite stdout (ESC :: cs "[0m");
                  EvWrite stdout [LF];
                  EvUnlock]
                 (set_timestamp (cs "12:00:00") traceless)).
Proof. repeat split; vm_compute; reflexivity. Qed.

(** ** Verbosity *)

Lemma tagged_run (function : text) (type : Z) (color format : text)
    (args : list va_arg) (now : tm) (body out tag : text) (w : world) :
  wf w ->
  resolved type NULL w <> NULL ->
  vsnprintf (BUFFLEN - 1) format args = Some body ->
  vsnprintf (BUFFLEN - 1) body [] = Some out ->
  tag_events (resolved type NULL w) type w = [EvWrite (resolved type NULL w) tag] ->
  tagged_output (resolved type NULL w) tag out w
    (__Display function type NULL color format args now w).
Proof.
  intros Hw Hr Hb Ho Ht. set (r := resolved type NULL w) in *.
  exists (set_trace (trace w ++ Display_events function type NULL color now out w)
            (set_timestamp (strftime_T now) w)),
    ((if truthy (isLocked w) then [] else [EvLock])
     ++ header_events r function color now (call_colorfulness type w) w),
    (reset_events r (call_colorfulness type w) ++ newline_events r w
     ++ (if truthy (isLocked w) then [] else [EvUnlock])).
  split.
  - eapply Display_run; eassumption.
  - unfold Display_events, Display_writes. fold r. rewrite Ht.
    destruct w; cbn [trace set_trace set_timestamp]. f_equal.
    rewrite <- !app_assoc. reflexivity.
Qed.

(** C3. With verbosity disabled, Display and DisplayColor return at once
    and leave the world as it is: no event, so no write and no use of the
    mutex.  DisplayWarning and DisplayError, in a well-formed world with
    streams for these two categories, a format that suits its arguments and
    a body that dprint can format, return after writing their tag and the
    body. *)
Theorem C3_verbosity_gates_standard_only (function color format : text)
    (args : list va_arg) (now : tm) (body out : text) (w : world) :
  verbose w = DISABLE ->
  Display function format args now w = Ret tt w
  /\ DisplayColor function color format args now w = Ret tt w
  /\ (wf w ->
      vsnprintf (BUFFLEN - 1) format args = Some body ->
      vsnprintf (BUFFLEN - 1) body [] = Some out ->
      (resolved WARNING NULL w <> NULL ->
       tagged_output (resolved WARNING NULL w) (cs "[WARNING] ") out w
         (DisplayWarning function format args now w))
      /\ (resolved ERROR NULL w <> NULL ->
          tagged_output (resolved ERROR NULL w) (cs "[ERROR] ") out w
            (DisplayError function format args now w))).
Proof.
  intros Hv. unfold Display, DisplayColor. rewrite !bind_gets, Hv.
  split; [reflexivity|]. split; [reflexivity|].
  intros Hw Hb Ho. unfold DisplayWarning, DisplayError. split; intros Hr.
  - apply (tagged_run function WARNING (BOLD ++ YELLOW) format args now
             body out (cs "[WARNING] ") w Hw Hr Hb Ho).
    reflexivity.
  - apply (tagged_run function ERROR (BOLD ++ RED) format args now
             body out (cs "[ERROR] ") w Hw Hr Hb Ho).
    reflexivity.
Qed.

Lemma InitializeDisplay_silent :
  __InitializeDisplay true true ["s"%char] (cs "demo.c") startup = Ret 0 silent.
Proof. reflexivity. Qed.

Lemma silent_wf : wf silent.
Proof. split; cbn; auto. Qed.

Lemma C3_verbosity_gates_standard_only_witness :
  Display (cs "main") (cs "count=%d") [VInt 5] noon silent = Ret tt silent
  /\ DisplayColor (cs "main") GREEN (cs "count=%d") [VInt 5] noon silent
     = Ret tt silent
  /\ tagged_output stderr (cs "[WARNING] ") (cs "count=5") silent
       (DisplayWarning (cs "main") (cs "count=%d") [VInt 5] noon silent)
  /\ tagged_output stderr (cs "[ERROR] ") (cs "count=5") silent
       (DisplayError (cs "main") (cs "count=%d") [VInt 5] noon silent).
Proof.
  pose proof (C3_verbosity_gates_standard_only (cs "main") GREEN
                (cs "count=%d") [VInt 5] noon (cs "count=5") (cs "count=5")
                silent eq_refl) as (H1 & H2 & H3).
  split; [exact H1|]. split; [exact H2|].
  destruct (H3 silent_wf eq_refl eq_refl) as [H4 H5].
  split; [apply H4 | apply H5]; discriminate.
Defined.

(** ** Colorfulness *)

(** C4. A call of __Display, for any category and any value of the two
    redirection flags, in a well-formed world, on a stream that is not null,
    with a format that suits its arguments and a body that dprint can
    format, returns with colorfulness at the value it had before the call;
    the two redirection flags are as before too. *)
Theorem C4_colorfulness_restored (function : text) (type : Z) (fd : FILE_ptr)
    (color format : text) (args : list va_arg) (now : tm)
    (body out : text) (w : world) :
  wf w ->
  resolved type fd w <> NULL ->
  vsnprintf (BUFFLEN - 1) format args = Some body ->
  vsnprintf (BUFFLEN - 1) body [] = Some out ->
  exists w', __Display function type fd color format args now w = Ret tt w'
             /\ colorfulness w' = colorfulness w
             /\ stdoutToFile w' = stdoutToFile w
             /\ stderrToFile w' = stderrToFile w.
Proof.
  intros Hw Hr Hb Ho. eexists. split; [eapply Display_run; eassumption|].
  destruct w; auto.
Qed.

Lemma InitializeDisplay_to_file :
  __InitializeDisplay false true [] (cs "demo.c") startup = Ret 0 to_file.
Proof. reflexivity. Qed.

Lemma to_file_wf : wf to_file.
Proof. split; cbn; auto. Qed.

Lemma C4_colorfulness_restored_witness :
  exists w', __Display (cs "main") STANDARD NULL RESET (cs "count=%d") [VInt 5]
               noon to_file = Ret tt w'
             /\ colorfulness w' = colorfulness to_file
             /\ stdoutToFile w' = stdoutToFile to_file
             /\ stderrToFile w' = stderrToFile to_file.
Proof.
  apply (C4_colorfulness_restored (cs "main") STANDARD NULL RESET
           (cs "count=%d") [VInt 5] noon (cs "count=5") (cs "count=5") to_file
           to_file_wf);
    [discriminate | reflexivity | reflexivity].
Defined.

(** The override is in force during that call: nothing of the colour and no
    reset sequence reaches the file. *)
Example Display_to_file :
  Display (cs "main") (cs "count=%d") [VInt 5] noon to_file
  = Ret tt (set_trace
              [EvLock;
               EvWrite stdout (cs "[12:00:00][demo.c][main]");
               EvWrite stdout (cs " ");
               EvWrite stdout (cs "count=5");
               EvWrite stdout [LF];
               EvUnlock]
              (set_timestamp (cs "12:00:00") to_file)).
Proof. vm_compute; reflexivity. Qed.

(** What the file receives is one line. *)
Example Display_to_file_line :
  forall w', Display (cs "main") (cs "count=%d") [VInt 5] noon to_file = Ret tt w' ->
             written_to stdout (trace w')
             = cs "[12:00:00][demo.c][main] count=5" ++ [LF].
Proof. intros w'. rewrite Display_to_file. intros [= <-]. vm_compute; reflexivity. Qed.

(** ** Destinations *)

Lemma persistent_range (type : Z) :
  type = STANDARD \/ type = WARNING \/ type = ERROR ->
  (STANDARD <=? type) && (type <=? ERROR) = true /\ (type =? CUSTOM) = false
  /\ (Z.to_nat type < 3)%nat.
Proof.
  unfold STANDARD, WARNING, ERROR, CUSTOM.
  intros [-> | [-> | ->]]; repeat split; reflexivity || lia.
Qed.

Lemma SetStream_run (type : Z) (newStream : FILE_ptr) (w : world) :
  type = STANDARD \/ type = WARNING \/ type = ERROR ->
  SetStream type newStream w
  = Ret 0 (set_streams (<[Z.to_nat type := newStream]> (streams w)) w).
Proof.
  intros H. apply persistent_range in H as (H & _ & _).
  unfold SetStream. rewrite H. reflexivity.
Qed.

Lemma SetStream_wf (type : Z) (newStream : FILE_ptr) (w : world) :
  wf w -> wf (set_streams (<[Z.to_nat type := newStream]> (streams w)) w).
Proof.
  intros [? ? ? ? ?]. destruct w; split; cbn in *; auto.
  rewrite length_insert. assumption.
Qed.

Lemma resolved_SetStream (type : Z) (fd newStream : FILE_ptr) (w : world) :
  length (streams w) = 3%nat ->
  type = STANDARD \/ type = WARNING \/ type = ERROR ->
  resolved type fd (set_streams (<[Z.to_nat type := newStream]> (streams w)) w)
  = newStream.
Proof.
  intros Hl H. apply persistent_range in H as (H1 & H2 & H3).
  unfold resolved. rewrite H1, H2. destruct w; cbn in *.
  apply list_lookup_total_insert_eq. lia.
Qed.

(** C8. For each of the categories STANDARD, WARNING and ERROR and each
    stream that is not null, in a well-formed world, SetStream for that
    category followed by a call of __Display for it (with a format that
    suits its arguments and a body that dprint can format) returns, the body
    has been written to that stream, and every write of the call went to
    that stream, whatever the category was bound to before. *)
Theorem C8_SetStream_then_emit (function : text) (type : Z)
    (fd newStream : FILE_ptr) (color format : text) (args : list va_arg)
    (now : tm) (body out : text) (w : world) :
  wf w ->
  type = STANDARD \/ type = WARNING \/ type = ERROR ->
  newStream <> NULL ->
  vsnprintf (BUFFLEN - 1) format args = Some body ->
  vsnprintf (BUFFLEN - 1) body [] = Some out ->
  exists w' events,
    (SetStream type newStream;;
     __Display function type fd color format args now) w = Ret tt w'
    /\ trace w' = trace w ++ events
    /\ EvWrite newStream out ∈ events
    /\ forall (f : FILE_ptr) (x : text), EvWrite f x ∈ events -> f = newStream.
Proof.
  intros Hw Ht Hn Hb Ho.
  set (w1 := set_streams (<[Z.to_nat type := newStream]> (streams w)) w).
  assert (Hr : resolved type fd w1 = newStream)
    by (apply resolved_SetStream; [apply Hw | exact Ht]).
  exists (set_trace (trace w1 ++ Display_events function type fd color now out w1)
            (set_timestamp (strftime_T now) w1)),
    (Display_events function type fd color now out w1).
  split; [|split; [|split]].
  - erewrite bind_eq by (apply SetStream_run; exact Ht).
    apply Display_run with (body := body); try assumption.
    + apply SetStream_wf, Hw.
    + fold w1. rewrite Hr. exact Hn.
  - destruct w; reflexivity.
  - rewrite <- Hr at 1. apply Display_events_body.
  - intros f x Hin. rewrite <- Hr. eapply Display_events_stream, Hin.
Qed.

(** demo.c, lines 42 to 44: the standard category sent to a file. *)
Lemma C8_SetStream_then_emit_witness :
  exists w' events,
    (SetStream STANDARD (fopened 0);;
     __Display (cs "main") STANDARD NULL RESET (cs "Hello, text file!") [] noon)
      ready = Ret tt w'
    /\ trace w' = trace ready ++ events
    /\ EvWrite (fopened 0) (cs "Hello, text file!") ∈ events
    /\ forall (f : FILE_ptr) (x : text), EvWrite f x ∈ events -> f = fopened 0.
Proof.
  apply (C8_SetStream_then_emit (cs "main") STANDARD NULL (fopened 0) RESET
           (cs "Hello, text file!") [] noon (cs "Hello, text file!")
           (cs "Hello, text file!") ready ready_wf);
    [left; reflexivity | discriminate | reflexivity | reflexivity].
Defined.

(** ** Well-formed worlds are the ones a program meets *)

Create HintDb wf_db.

Lemma bind_wf {A B} (m : M A) (k : A -> M B) :
  preserves_wf m -> (forall a, preserves_wf (k a)) -> preserves_wf (bind m k).
Proof.
  intros Hm Hk w w' b Hw. unfold bind.
  destruct (m w) as [a w1 | | |] eqn:E; try discriminate.
  apply (Hk a w1). eapply Hm; eassumption.
Qed.

Lemma ret_wf {A} (a : A) : preserves_wf (ret a).
Proof. intros w w' b Hw [= _ <-]. exact Hw. Qed.

Lemma exit_wf {A} (code : Z) : preserves_wf (@exit A code).
Proof. intros w w' b Hw. discriminate. Qed.

Lemma gets_wf {A} (f : world -> A) : preserves_wf (gets f).
Proof. intros w w' b Hw [= _ <-]. exact Hw. Qed.

Lemma modify_wf (f : world -> world) :
  (forall w, wf w -> wf (f w)) -> preserves_wf (modify f).
Proof. intros Hf w w' b Hw [= _ <-]. apply Hf, Hw. Qed.

Lemma when_wf (b : bool) (m : M unit) : preserves_wf m -> preserves_wf (when b m).
Proof. destruct b; [auto | intros _; apply ret_wf]. Qed.

Lemma dprint_wf (stream : FILE_ptr) (format : text) (args : list va_arg) :
  preserves_wf (dprint stream format args).
Proof.
  intros w w' b [? ? ? ? ?]. unfold dprint.
  destruct (vsnprintf _ _ _); [|discriminate].
  destruct stream; try discriminate; intros [= _ <-]; destruct w; split; assumption.
Qed.

#[local] Hint Resolve bind_wf ret_wf exit_wf gets_wf when_wf dprint_wf : wf_db.

Lemma SetVerbose_wf (v : Z) : preserves_wf (SetVerbose v).
Proof.
  unfold SetVerbose. destruct (_ || _); auto with wf_db.
  apply bind_wf; auto with wf_db. apply modify_wf.
  intros w [? ? ? ? ?]. destruct w; split; assumption.
Qed.

Lemma SetColorfulness_wf (c : Z) : preserves_wf (SetColorfulness c).
Proof.
  unfold SetColorfulness. destruct (_ || _) eqn:E; auto with wf_db.
  apply bind_wf; auto with wf_db. apply modify_wf.
  intros w [? ? ? ? ?]. destruct w; split; try assumption.
  cbn. unfold DISABLE, ENABLE in *. lia.
Qed.

Lemma SetAutoNewline_wf (a : Z) : preserves_wf (SetAutoNewline a).
Proof.
  unfold SetAutoNewline. destruct (_ || _); auto with wf_db.
  apply bind_wf; auto with wf_db. apply modify_wf.
  intros w [? ? ? ? ?]. destruct w; split; assumption.
Qed.

Lemma SetShowTrace_wf (s : Z) : preserves_wf (SetShowTrace s).
Proof.
  unfold SetShowTrace. destruct (_ || _); auto with wf_db.
  apply bind_wf; auto with wf_db. apply modify_wf.
  intros w [? ? ? ? ?]. destruct w; split; assumption.
Qed.

Lemma SetStream_preserves_wf (streamType : Z) (newStream : FILE_ptr) :
  preserves_wf (SetStream streamType newStream).
Proof.
  unfold SetStream. destruct (_ && _); auto with wf_db.
  apply bind_wf; auto with wf_db. apply modify_wf.
  intros w Hw. apply SetStream_wf, Hw.
Qed.

Lemma strncpy_wf (dst : list ascii) (src : text) :
  length dst = sizeof_file -> drop (sizeof_file - 1) dst = [NUL] ->
  length (strncpy dst src (sizeof_file - 1)) = sizeof_file
  /\ drop (sizeof_file - 1) (strncpy dst src (sizeof_file - 1)) = [NUL].
Proof.
  intros Hl Hd. unfold strncpy.
  assert (Ht : length (take (sizeof_file - 1)
                         (c_str src ++ replicate (sizeof_file - 1) NUL))
               = (sizeof_file - 1)%nat).
  { rewrite length_take, length_app, length_replicate. lia. }
  split.
  - rewrite length_app, Ht, Hd. reflexivity.
  - rewrite drop_app_length'; [exact Hd | symmetry; exact Ht].
Qed.

Lemma SetFilename_wf (newFilename : option text) : preserves_wf (SetFilename newFilename).
Proof.
  unfold SetFilename. destruct newFilename as [s|]; auto with wf_db.
  apply bind_wf; auto with wf_db. apply modify_wf.
  intros w [? ? ? Hl Hd]. destruct (strncpy_wf (file w) s Hl Hd).
  destruct w; split; assumption.
Qed.

Lemma snprintf_s_wf (dst : list ascii) (src : text) :
  length dst = sizeof_file -> drop (sizeof_file - 1) dst = [NUL] ->
  length (snprintf_s dst (sizeof_file - 1) src) = sizeof_file
  /\ drop (sizeof_file - 1) (snprintf_s dst (sizeof_file - 1) src) = [NUL].
Proof.
  intros Hl Hd. unfold snprintf_s, sizeof_file in *. cbn [Nat.sub].
  set (out := take 30 (c_str src)).
  assert (Ho : (length out <= 30)%nat) by (unfold out; rewrite length_take; lia).
  split.
  - rewrite length_app. cbn [length]. rewrite length_drop. lia.
  - rewrite drop_app_ge by lia.
    replace (31 - length out)%nat with (S (30 - length out)) by lia.
    cbn [drop]. rewrite drop_drop.
    replace (S (length out) + (30 - length out))%nat with 31%nat by lia.
    exact Hd.
Qed.

Lemma DisplayLock_wf : preserves_wf DisplayLock.
Proof.
  intros w w' r [? Hl ? ? ?]. unfold DisplayLock. rewrite bind_gets.
  unfold bind, when, pthread_mutex_lock, modify, ret.
  destruct (truthy (isLocked w)) eqn:E; cbn [negb].
  - intros [= _ <-]. destruct w; split; cbn in *; auto.
  - rewrite Hl. intros [= _ <-]. destruct w; split; cbn in *; auto.
Qed.

Lemma DisplayUnlock_wf : preserves_wf DisplayUnlock.
Proof.
  intros w w' r [? Hl ? ? ?]. unfold DisplayUnlock. rewrite bind_gets.
  unfold bind, when, pthread_mutex_unlock, modify, ret.
  destruct (truthy (isLocked w)) eqn:E.
  - rewrite Hl. intros [= _ <-]. destruct w; split; cbn in *; auto.
  - intros [= _ <-]. destruct w; split; cbn in *; auto.
Qed.

Lemma parse_options_wf (opts : list ascii) : preserves_wf (parse_options opts).
Proof.
  induction opts as [|opt opts IH]; cbn [parse_options]; auto with wf_db.
  apply bind_wf; [|intros _; exact IH]. unfold parse_option.
  destruct (Ascii.eqb opt "s");
    [apply bind_wf; auto using SetVerbose_wf with wf_db|].
  destruct (Ascii.eqb opt "n");
    [apply bind_wf; auto using SetColorfulness_wf with wf_db|].
  auto with wf_db.
Qed.

Lemma InitializeDisplay_wf (stdout_isatty stderr_isatty : bool)
    (opts : list ascii) (base : text) :
  preserves_wf (__InitializeDisplay stdout_isatty stderr_isatty opts base).
Proof.
  unfold __InitializeDisplay.
  apply bind_wf; [|intros _].
  { apply when_wf, modify_wf. intros w [? ? ? ? ?]. destruct w; split; assumption. }
  apply bind_wf; [|intros _].
  { apply when_wf, modify_wf. intros w [? ? ? ? ?]. destruct w; split; assumption. }
  apply bind_wf; [apply SetVerbose_wf | intros _].
  apply bind_wf; [apply SetColorfulness_wf | intros _].
  do 3 (apply bind_wf; [apply SetStream_preserves_wf | intros _]).
  apply bind_wf; [apply parse_options_wf | intros _].
  apply bind_wf; [|intros _; apply ret_wf].
  apply modify_wf. intros w [? ? ? Hl Hd].
  destruct (snprintf_s_wf (file w) base Hl Hd). destruct w; split; assumption.
Qed.

(** A call of [__Display] that meets the conditions of [Display_run]. *)
Lemma Display_wf (function : text) (type : Z) (fd : FILE_ptr)
    (color : text) (now : tm) (out : text) (w : world) :
  wf w ->
  wf (set_trace (trace w ++ Display_events function type fd color now out w)
        (set_timestamp (strftime_T now) w)).
Proof. intros [? ? ? ? ?]. destruct w; split; assumption. Qed.

(** Every program starts with [InitializeDisplay] in a well-formed world. *)
Lemma InitializeDisplay_startup (stdout_isatty stderr_isatty : bool)
    (opts : list ascii) (base : text) (w : world) (r : Z) :
  __InitializeDisplay stdout_isatty stderr_isatty opts base startup = Ret r w ->
  wf w.
Proof. apply InitializeDisplay_wf, startup_wf. Qed.

(** * Further properties of the code *)

(** ** Initialisation *)

Lemma parse_options_run (opts : list ascii) (w : world) :
  parse_options opts w
  = Ret tt (set_verbose (if opt_given "s" opts then DISABLE else verbose w)
              (set_colorfulness (if opt_given "n" opts then DISABLE else colorfulness w)
                 w)).
Proof.
  revert w. induction opts as [|opt opts IH]; intros w.
  - destruct w; reflexivity.
  - cbn [parse_options]. unfold opt_given in *. cbn [existsb].
    rewrite (Ascii.eqb_sym "s" opt), (Ascii.eqb_sym "n" opt).
    unfold parse_option.
    destruct (Ascii.eqb opt "s") eqn:Es.
    + apply Ascii.eqb_eq in Es. subst opt. cbn [Ascii.eqb Bool.eqb orb].
      erewrite bind_eq by reflexivity. rewrite IH.
      destruct w; cbn. destruct (existsb _ _), (existsb _ _); reflexivity.
    + destruct (Ascii.eqb opt "n") eqn:En.
      * erewrite bind_eq by reflexivity. rewrite IH.
        destruct w; cbn. destruct (existsb _ _), (existsb _ _); reflexivity.
      * erewrite bind_eq by reflexivity. rewrite IH. reflexivity.
Qed.

Lemma when_modify (b : bool) (f : world -> world) (w : world) :
  when b (modify f) w = Ret tt (if b then f w else w).
Proof. destruct b; reflexivity. Qed.

(** [__InitializeDisplay] returns 0 in every world, for every answer of the
    C library. *)
Lemma InitializeDisplay_run (stdout_isatty stderr_isatty : bool)
    (opts : list ascii) (base : text) (w : world) :
  __InitializeDisplay stdout_isatty stderr_isatty opts base w
  = Ret 0 (initialized stdout_isatty stderr_isatty opts base w).
Proof.
  unfold __InitializeDisplay.
  erewrite bind_eq by apply when_modify.
  erewrite bind_eq by apply when_modify.
  do 5 (erewrite bind_eq by reflexivity).
  erewrite bind_eq by apply parse_options_run.
  erewrite bind_eq by reflexivity.
  unfold ret, initialized. f_equal.
  destruct w, stdout_isatty, stderr_isatty; reflexivity.
Qed.




(** X2. __InitializeDisplay binds STANDARD to stdout and WARNING and ERROR to
    stderr, whatever the three destinations were before: it undoes every
    earlier SetStream. *)
Theorem InitializeDisplay_streams (stdout_isatty stderr_isatty : bool)
    (opts : list ascii) (base : text) (w : world) :
  length (streams w) = 3%nat ->
  exists w',
    __InitializeDisplay stdout_isatty stderr_isatty opts base w = Ret 0 w'
    /\ GetStream STANDARD w' = Ret stdout w'
    /\ GetStream WARNING w' = Ret stderr w'
    /\ GetStream ERROR w' = Ret stderr w'.
Proof.
  intros Hl. eexists. split; [apply InitializeDisplay_run|].
  unfold GetStream, gets. cbn [Z.leb Z.compare STANDARD WARNING ERROR andb].
  destruct w as [v c f a sT ss oF eF l ts cl tr]. cbn in Hl.
  destruct ss as [|s0 [|s1 [|s2 [|? ?]]]]; try discriminate Hl.
  repeat split; reflexivity.
Qed.

Lemma InitializeDisplay_streams_witness :
  exists w',
    __InitializeDisplay true true [] (cs "demo.c")
      (set_streams [fopened 0; fopened 1; NULL] ready) = Ret 0 w'
    /\ GetStream STANDARD w' = Ret stdout w'
    /\ GetStream WARNING w' = Ret stderr w'
    /\ GetStream ERROR w' = Ret stderr w'.
Proof.
  apply (InitializeDisplay_streams true true [] (cs "demo.c")
           (set_streams [fopened 0; fopened 1; NULL] ready)).
  reflexivity.
Defined.

(** X3. After __InitializeDisplay the label is the first 30 characters of
    the base name: snprintf is given sizeof(file)-1 = 31 as the size and
    keeps one cell of it for the terminator, so it stores one character less
    than SetFilename does. *)
Theorem InitializeDisplay_label (stdout_isatty stderr_isatty : bool)
    (opts : list ascii) (base : text) (w : world) :
  exists w',
    __InitializeDisplay stdout_isatty stderr_isatty opts base w = Ret 0 w'
    /\ GetFilename w' = Ret (take 30 (c_str base)) w'.
Proof.
  eexists. split; [apply InitializeDisplay_run|].
  unfold GetFilename, gets. f_equal.
  cbn [initialized file]. unfold snprintf_s, sizeof_file. cbn [Nat.sub].
  apply c_str_until_NUL, take_no_NUL, c_str_no_NUL.
Qed.

(** X4. __InitializeDisplay only ever raises the two redirection flags: each
    becomes 1 when its stream is not a terminal and keeps its value
    otherwise, so a flag raised by one initialisation is not lowered by a
    later one on a terminal.  showTrace, autoNewline, the manual lock and
    the mutex are left as they were, and nothing is written. *)
Theorem InitializeDisplay_frame (stdout_isatty stderr_isatty : bool)
    (opts : list ascii) (base : text) (w : world) :
  exists w',
    __InitializeDisplay stdout_isatty stderr_isatty opts base w = Ret 0 w'
    /\ stdoutToFile w' = (if stdout_isatty then stdoutToFile w else 1)
    /\ stderrToFile w' = (if stderr_isatty then stderrToFile w else 1)
    /\ showTrace w' = showTrace w
    /\ autoNewline w' = autoNewline w
    /\ isLocked w' = isLocked w
    /\ consoleLock w' = consoleLock w
    /\ trace w' = trace w.
Proof.
  eexists. split; [apply InitializeDisplay_run|]. repeat split; reflexivity.
Qed.

(** ** Destinations *)

(** X5. For a category among STANDARD, WARNING and ERROR, GetStream after
    SetStream returns the stream that was set, the null stream included
    (SetStream does not test it), and the stream of every other category is
    the one it was. *)
Theorem SetStream_then_GetStream (type other : Z) (newStream : FILE_ptr) (w : world) :
  length (streams w) = 3%nat ->
  type = STANDARD \/ type = WARNING \/ type = ERROR ->
  exists w1,
    SetStream type newStream w = Ret 0 w1
    /\ GetStream type w1 = Ret newStream w1
    /\ (other <> type ->
        exists s, GetStream other w = Ret s w /\ GetStream other w1 = Ret s w1).
Proof.
  intros Hl Ht. eexists. split; [apply SetStream_run, Ht|].
  pose proof (persistent_range type Ht) as (Hr & _ & Hn).
  split.
  - unfold GetStream. rewrite Hr. unfold gets. f_equal.
    destruct w; cbn in *. apply list_lookup_total_insert_eq. lia.
  - intros Ho. unfold GetStream.
    destruct ((STANDARD <=? other) && (other <=? ERROR)) eqn:E.
    + eexists. split; [reflexivity|]. unfold gets. f_equal.
      destruct w; cbn in *. apply list_lookup_total_insert_ne.
      unfold STANDARD, ERROR in *. lia.
    + eexists. split; reflexivity.
Qed.

Lemma SetStream_then_GetStream_witness :
  exists w1,
    SetStream WARNING stdout ready = Ret 0 w1
    /\ GetStream WARNING w1 = Ret stdout w1
    /\ exists s, GetStream ERROR ready = Ret s ready /\ GetStream ERROR w1 = Ret s w1.
Proof.
  destruct (SetStream_then_GetStream WARNING ERROR stdout ready)
    as (w1 & H1 & H2 & H3); [reflexivity | right; left; reflexivity |].
  exists w1. split; [exact H1|]. split; [exact H2|]. apply H3. discriminate.
Defined.

(** ** The manual lock and the calls made under it *)

Lemma Display_writes_is_write (function : text) (type : Z) (fd : FILE_ptr)
    (color : text) (now : tm) (out : text) (w : world) (e : event) :
  e ∈ Display_writes function type fd color now out w -> is_write e.
Proof.
  unfold Display_writes, header_events, tag_events, reset_events, newline_events.
  destruct (truthy (showTrace w)), (type =? ERROR), (type =? WARNING),
    (truthy (call_colorfulness type w)), (truthy (autoNewline w));
    cbn [app]; intros H;
    repeat (apply elem_of_cons in H as [-> | H]; [eexists _, _; reflexivity|]);
    apply elem_of_nil in H; contradiction.
Qed.

(** The writes of a call depend on the flags, the label and the
    destinations only. *)
Lemma Display_writes_frame (function : text) (type : Z) (fd : FILE_ptr)
    (color : text) (now : tm) (out : text) (w : world)
    (l : Z) (ts : text) (cl : bool) (tr : list event) :
  Display_writes function type fd color now out
    (set_trace tr (set_timestamp ts (set_isLocked l (set_consoleLock cl w))))
  = Display_writes function type fd color now out w.
Proof. destruct w; reflexivity. Qed.

Lemma Display_events_held (function : text) (type : Z) (fd : FILE_ptr)
    (color : text) (now : tm) (out : text) (w : world) :
  isLocked w <> 0 ->
  Display_events function type fd color now out w
  = Display_writes function type fd color now out w.
Proof.
  intros Hl. unfold Display_events, truthy.
  replace (isLocked w =? 0) with false by lia. cbn [negb app].
  apply app_nil_r.
Qed.

Lemma Display_events_free (function : text) (type : Z) (fd : FILE_ptr)
    (color : text) (now : tm) (out : text) (w : world) :
  isLocked w = 0 ->
  Display_events function type fd color now out w
  = EvLock :: Display_writes function type fd color now out w ++ [EvUnlock].
Proof. intros Hl. unfold Display_events. rewrite Hl. reflexivity. Qed.

(** X6. While the lock is held by hand, a call of __Display takes and
    releases no mutex: every event it adds is a write, and the manual lock
    and the mutex are held afterwards as before. *)
Theorem Display_under_manual_lock (function : text) (type : Z) (fd : FILE_ptr)
    (color format : text) (args : list va_arg) (now : tm)
    (body out : text) (w : world) :
  wf w ->
  isLocked w <> 0 ->
  resolved type fd w <> NULL ->
  vsnprintf (BUFFLEN - 1) format args = Some body ->
  vsnprintf (BUFFLEN - 1) body [] = Some out ->
  exists w' events,
    __Display function type fd color format args now w = Ret tt w'
    /\ trace w' = trace w ++ events
    /\ (forall e, e ∈ events -> is_write e)
    /\ isLocked w' = isLocked w
    /\ consoleLock w' = true.
Proof.
  intros Hw Hl Hr Hb Ho.
  exists (set_trace (trace w ++ Display_events function type fd color now out w)
            (set_timestamp (strftime_T now) w)),
    (Display_events function type fd color now out w).
  split; [eapply Display_run; eassumption|].
  split; [destruct w; reflexivity|].
  split.
  - rewrite Display_events_held by exact Hl. apply Display_writes_is_write.
  - destruct Hw as [_ Hk _ _ _]. unfold truthy in Hk.
    replace (isLocked w =? 0) with false in Hk by lia.
    destruct w; split; [reflexivity | exact Hk].
Qed.

Lemma held_wf : wf held.
Proof. split; cbn; auto. Qed.

Lemma Display_under_manual_lock_witness :
  exists w' events,
    __Display (cs "main") ERROR NULL (BOLD ++ RED) (cs "count=%d") [VInt 5]
      noon held = Ret tt w'
    /\ trace w' = trace held ++ events
    /\ (forall e, e ∈ events -> is_write e)
    /\ isLocked w' = isLocked held
    /\ consoleLock w' = true.
Proof.
  apply (Display_under_manual_lock (cs "main") ERROR NULL (BOLD ++ RED)
           (cs "count=%d") [VInt 5] noon (cs "count=5") (cs "count=5") held
           held_wf);
    [discriminate | discriminate | reflexivity | reflexivity].
Defined.

Lemma DisplayLock_run (w : world) :
  isLocked w = 0 -> consoleLock w = false ->
  DisplayLock w = Ret 0 (set_isLocked 1 (emit EvLock (set_consoleLock true w))).
Proof.
  intros Hl Hc. unfold DisplayLock. rewrite bind_gets, Hl.
  cbn [truthy Z.eqb negb when].
  unfold bind at 1, pthread_mutex_lock. rewrite Hc. reflexivity.
Qed.

Lemma DisplayUnlock_run (w : world) :
  isLocked w <> 0 -> consoleLock w = true ->
  DisplayUnlock w = Ret 0 (set_isLocked 0 (emit EvUnlock (set_consoleLock false w))).
Proof.
  intros Hl Hc. unfold DisplayUnlock. rewrite bind_gets. unfold truthy.
  replace (isLocked w =? 0) with false by lia. cbn [negb when].
  unfold bind at 1, pthread_mutex_unlock. rewrite Hc. reflexivity.
Qed.

Lemma locked_wf (w : world) :
  wf w -> wf (set_isLocked 1 (emit EvLock (set_consoleLock true w))).
Proof. intros [? ? ? ? ?]. destruct w; split; cbn in *; auto. Qed.

(** X7. DisplayLock, two calls of __Display and DisplayUnlock, one after the
    other in a well-formed world where the lock is free: the mutex is taken
    once before the first write and released once after the last, every
    event in between is a write, both bodies are among them, and the lock is
    free again at the end. *)
Theorem locked_block_is_one_critical_section
    (function1 function2 : text) (type1 type2 : Z) (fd1 fd2 : FILE_ptr)
    (color1 color2 format1 format2 : text) (args1 args2 : list va_arg)
    (now1 now2 : tm) (body1 out1 body2 out2 : text) (w : world) :
  wf w ->
  isLocked w = 0 ->
  resolved type1 fd1 w <> NULL ->
  resolved type2 fd2 w <> NULL ->
  vsnprintf (BUFFLEN - 1) format1 args1 = Some body1 ->
  vsnprintf (BUFFLEN - 1) body1 [] = Some out1 ->
  vsnprintf (BUFFLEN - 1) format2 args2 = Some body2 ->
  vsnprintf (BUFFLEN - 1) body2 [] = Some out2 ->
  exists w' writes,
    (DisplayLock;;
     __Display function1 type1 fd1 color1 format1 args1 now1;;
     __Display function2 type2 fd2 color2 format2 args2 now2;;
     DisplayUnlock) w = Ret 0 w'
    /\ trace w' = trace w ++ EvLock :: writes ++ [EvUnlock]
    /\ (forall e, e ∈ writes -> is_write e)
    /\ EvWrite (resolved type1 fd1 w) out1 ∈ writes
    /\ EvWrite (resolved type2 fd2 w) out2 ∈ writes
    /\ isLocked w' = 0
    /\ consoleLock w' = false.
Proof.
  intros Hw Hl Hr1 Hr2 Hb1 Ho1 Hb2 Ho2.
  assert (Hc : consoleLock w = false) by (rewrite (wf_lock w Hw), Hl; reflexivity).
  set (w1 := set_isLocked 1 (emit EvLock (set_consoleLock true w))).
  set (d1 := Display_writes function1 type1 fd1 color1 now1 out1 w).
  set (d2 := Display_writes function2 type2 fd2 color2 now2 out2 w).
  set (w2 := set_trace (trace w1 ++ d1) (set_timestamp (strftime_T now1) w1)).
  set (w3 := set_trace (trace w2 ++ d2) (set_timestamp (strftime_T now2) w2)).
  assert (Hw1 : wf w1) by apply locked_wf, Hw.
  assert (E2 : __Display function1 type1 fd1 color1 format1 args1 now1 w1 = Ret tt w2).
  { erewrite Display_run by eassumption.
    rewrite Display_events_held by (destruct w; discriminate).
    replace (Display_writes function1 type1 fd1 color1 now1 out1 w1) with d1
      by (destruct w; reflexivity).
    reflexivity. }
  assert (Hw2 : wf w2).
  { unfold w2. destruct Hw1. destruct w; split; assumption. }
  assert (E3 : __Display function2 type2 fd2 color2 format2 args2 now2 w2 = Ret tt w3).
  { erewrite Display_run by eassumption.
    rewrite Display_events_held by (destruct w; discriminate).
    replace (Display_writes function2 type2 fd2 color2 now2 out2 w2) with d2
      by (destruct w; reflexivity).
    reflexivity. }
  exists (set_isLocked 0 (emit EvUnlock (set_consoleLock false w3))), (d1 ++ d2).
  split; [|split; [|split; [|split; [|split; [|split]]]]].
  - erewrite bind_eq by (apply DisplayLock_run; assumption).
    erewrite bind_eq by exact E2.
    erewrite bind_eq by exact E3.
    apply DisplayUnlock_run; destruct w; [discriminate | reflexivity].
  - destruct w; cbn [trace]. unfold w3, w2, w1. fields.
    rewrite <- !app_assoc. reflexivity.
  - intros e He. apply elem_of_app in He as [He | He];
      eapply Display_writes_is_write; exact He.
  - apply elem_of_app. left. unfold d1, Display_writes.
    rewrite !elem_of_app. right. right. left. apply list_elem_of_singleton.
    reflexivity.
  - apply elem_of_app. right. unfold d2, Display_writes.
    rewrite !elem_of_app. right. right. left. apply list_elem_of_singleton.
    reflexivity.
  - destruct w; reflexivity.
  - destruct w; reflexivity.
Qed.

(** demo.c, lines 35 to 38. *)
Lemma locked_block_is_one_critical_section_witness :
  exists w' writes,
    (DisplayLock;;
     __Display (cs "main") STANDARD NULL RESET
       (cs "Here is a print without a trace.") [] noon;;
     __Display (cs "main") ERROR NULL (BOLD ++ RED)
       (cs "Here is an error print without a trace.") [] noon;;
     DisplayUnlock) traceless = Ret 0 w'
    /\ trace w' = trace traceless ++ EvLock :: writes ++ [EvUnlock]
    /\ (forall e, e ∈ writes -> is_write e)
    /\ EvWrite stdout (cs "Here is a print without a trace.") ∈ writes
    /\ EvWrite stderr (cs "Here is an error print without a trace.") ∈ writes
    /\ isLocked w' = 0
    /\ consoleLock w' = false.
Proof.
  apply (locked_block_is_one_critical_section (cs "main") (cs "main")
           STANDARD ERROR NULL NULL RESET (BOLD ++ RED)
           (cs "Here is a print without a trace.")
           (cs "Here is an error print without a trace.") [] [] noon noon
           (cs "Here is a print without a trace.")
           (cs "Here is a print without a trace.")
           (cs "Here is an error print without a trace.")
           (cs "Here is an error print without a trace.") traceless);
    [split; cbn; auto | reflexivity | discriminate | discriminate
     | reflexivity | reflexivity | reflexivity | reflexivity].
Defined.

(** X8. DisplayLock followed by DisplayUnlock, the lock being free, brings
    every variable and the mutex back to what they were; the mutex has been
    taken and released once. *)
Theorem DisplayLock_then_DisplayUnlock (w : world) :
  isLocked w = 0 -> consoleLock w = false ->
  (DisplayLock;; DisplayUnlock) w = Ret 0 (emits [EvLock; EvUnlock] w).
Proof.
  intros Hl Hc. erewrite bind_eq by (apply DisplayLock_run; assumption).
  rewrite DisplayUnlock_run by (destruct w; first [discriminate | reflexivity]).
  f_equal. destruct w; fields. subst. rewrite <- app_assoc. reflexivity.
Qed.

Lemma DisplayLock_then_DisplayUnlock_witness :
  (DisplayLock;; DisplayUnlock) ready = Ret 0 (emits [EvLock; EvUnlock] ready).
Proof. apply (DisplayLock_then_DisplayUnlock ready); reflexivity. Defined.

(** ** The text of one call *)

Lemma written_to_app (stream : FILE_ptr) (t1 t2 : list event) :
  written_to stream (t1 ++ t2) = written_to stream t1 ++ written_to stream t2.
Proof.
  induction t1 as [|e t1 IH]; [reflexivity|].
  destruct e as [| |f s]; cbn [app written_to]; try exact IH.
  destruct (decide (f = stream)); [rewrite IH, app_assoc; reflexivity | exact IH].
Qed.

Lemma written_to_same (stream : FILE_ptr) (s : text) :
  written_to stream [EvWrite stream s] = s.
Proof. cbn. rewrite decide_True by reflexivity. apply app_nil_r. Qed.

Lemma written_to_other (stream f : FILE_ptr) (t : list event) :
  (forall g x, EvWrite g x ∈ t -> g <> f) -> written_to f t = [].
Proof.
  induction t as [|e t IH]; intros H; [reflexivity|].
  destruct e as [| |g s]; cbn [written_to];
    try (apply IH; intros g' x Hx; eapply H; right; exact Hx).
  rewrite decide_False by (eapply H; left).
  apply IH. intros g' x Hx. eapply H. right. exact Hx.
Qed.

Lemma written_to_optional (stream : FILE_ptr) (b : bool) (s : text) :
  written_to stream (if b then [EvWrite stream s] else []) = if b then s else [].
Proof. destruct b; [apply written_to_same | reflexivity]. Qed.

Lemma written_to_tag (stream : FILE_ptr) (type : Z) (w : world) :
  written_to stream (tag_events stream type w) = tag_text type w.
Proof.
  unfold tag_events, tag_text.
  destruct (type =? ERROR); [apply written_to_same|].
  destruct (type =? WARNING); [apply written_to_same|].
  apply written_to_optional.
Qed.

Lemma written_to_Display_events (function : text) (type : Z) (fd : FILE_ptr)
    (color : text) (now : tm) (out : text) (w : world) :
  written_to (resolved type fd w)
    (Display_events function type fd color now out w)
  = (if truthy (showTrace w)
     then header_text function color now (call_colorfulness type w) w else [])
    ++ tag_text type w
    ++ out
    ++ (if truthy (call_colorfulness type w) then RESET else [])
    ++ (if truthy (autoNewline w) then [LF] else []).
Proof.
  unfold Display_events, Display_writes, header_events, reset_events,
    newline_events.
  rewrite !written_to_app, !written_to_optional, written_to_tag, written_to_same.
  destruct (truthy (isLocked w)); cbn [written_to app]; rewrite app_nil_r;
    reflexivity.
Qed.

(** X9. The text one call of __Display appends to its stream: the header
    when the trace is shown (the colour first when colorfulness, as
    overridden for the call, is on; then time, label and function in
    brackets; cut to 254 characters), the tag of the category, the body, the
    reset sequence when colorfulness is on, and the newline when autoNewline
    is on.  Nothing is written to any other stream. *)
Theorem Display_line (function : text) (type : Z) (fd : FILE_ptr)
    (color format : text) (args : list va_arg) (now : tm)
    (body out : text) (w : world) :
  wf w ->
  resolved type fd w <> NULL ->
  vsnprintf (BUFFLEN - 1) format args = Some body ->
  vsnprintf (BUFFLEN - 1) body [] = Some out ->
  exists w' events,
    __Display function type fd color format args now w = Ret tt w'
    /\ trace w' = trace w ++ events
    /\ written_to (resolved type fd w) events
       = (if truthy (showTrace w)
          then take 254 ((if truthy (call_colorfulness type w) then color else [])
                         ++ cs "[" ++ strftime_T now ++ cs "][" ++ c_str (file w)
                         ++ cs "][" ++ function ++ cs "]")
          else [])
         ++ tag_text type w
         ++ out
         ++ (if truthy (call_colorfulness type w) then RESET else [])
         ++ (if truthy (autoNewline w) then [LF] else [])
    /\ forall f, f <> resolved type fd w -> written_to f events = [].
Proof.
  intros Hw Hr Hb Ho.
  exists (set_trace (trace w ++ Display_events function type fd color now out w)
            (set_timestamp (strftime_T now) w)),
    (Display_events function type fd color now out w).
  split; [eapply Display_run; eassumption|].
  split; [destruct w; reflexivity|].
  split; [apply written_to_Display_events|].
  intros f Hf. apply (written_to_other (resolved type fd w)).
  intros g x Hx. apply Display_events_stream in Hx. congruence.
Qed.

(** The scenario of the specification: label, verbosity on, colorfulness
    off, trace on. *)
Lemma Display_line_witness :
  exists w' events,
    __Display (cs "main") STANDARD NULL RESET (cs "count=%d") [VInt 5] noon
      (set_colorfulness DISABLE ready) = Ret tt w'
    /\ trace w' = trace (set_colorfulness DISABLE ready) ++ events
    /\ written_to stdout events = cs "[12:00:00][demo.c][main] count=5" ++ [LF]
    /\ forall f, f <> stdout -> written_to f events = [].
Proof.
  apply (Display_line (cs "main") STANDARD NULL RESET (cs "count=%d") [VInt 5]
           noon (cs "count=5") (cs "count=5") (set_colorfulness DISABLE ready));
    [split; cbn; auto | discriminate | reflexivity | reflexivity].
Defined.

(** ** Colour *)

Lemma digit_not_ESC (d : Z) : 0 <= d <= 9 -> digit d <> ESC.
Proof.
  intros Hd E. unfold digit, ESC in E. apply (f_equal nat_of_ascii) in E.
  rewrite !nat_ascii_embedding in E by lia. lia.
Qed.

Lemma two_digits_no_ESC (n : Z) : 0 <= n < 100 -> ESC ∉ two_digits n.
Proof.
  intros Hn. unfold two_digits. rewrite !not_elem_of_cons. split; [|split].
  - intros E. symmetry in E. revert E. apply digit_not_ESC.
    split; [apply Z.div_pos; lia | apply Z.lt_succ_r, Z.div_lt_upper_bound; lia].
  - intros E. symmetry in E. revert E. apply digit_not_ESC.
    pose proof (Z.mod_pos_bound n 10). lia.
  - apply not_elem_of_nil.
Qed.

Lemma strftime_T_no_ESC (now : tm) : valid_tm now -> ESC ∉ strftime_T now.
Proof.
  intros (Hh & Hm & Hs). unfold strftime_T.
  repeat (rewrite not_elem_of_app || rewrite not_elem_of_cons).
  repeat split; try discriminate; apply two_digits_no_ESC; lia.
Qed.

Lemma literal_no_ESC (s : text) :
  forallb (fun c => negb (Ascii.eqb c ESC)) s = true -> ESC ∉ s.
Proof.
  rewrite forallb_forall. intros H Hin. apply list_elem_of_In, H in Hin.
  rewrite Ascii.eqb_refl in Hin. discriminate.
Qed.

Lemma take_no_ESC (n : nat) (s : text) : ESC ∉ s -> ESC ∉ take n s.
Proof.
  intros Hs Hin. apply elem_of_take in Hin as (i & Hi & _).
  apply Hs, list_elem_of_lookup. exists i. exact Hi.
Qed.

Lemma suppressed (type : Z) (w : world) :
  colorfulness w = DISABLE \/ redirected type w = true ->
  call_colorfulness type w = DISABLE.
Proof.
  unfold call_colorfulness. intros [H | H]; [|rewrite H; reflexivity].
  destruct (redirected type w); [reflexivity | exact H].
Qed.

(** X10. When colorfulness is off, or the category is STANDARD and stdout
    was found redirected, or it is WARNING or ERROR and stderr was found
    redirected, a call of __Display writes no escape character of its own:
    if the function name, the label and the body hold none, the text written
    holds none, whatever the colour asked for. *)
Theorem no_escape_when_suppressed (function : text) (type : Z) (fd : FILE_ptr)
    (color format : text) (args : list va_arg) (now : tm)
    (body out : text) (w : world) :
  wf w ->
  valid_tm now ->
  colorfulness w = DISABLE \/ redirected type w = true ->
  ESC ∉ function -> ESC ∉ c_str (file w) -> ESC ∉ out ->
  resolved type fd w <> NULL ->
  vsnprintf (BUFFLEN - 1) format args = Some body ->
  vsnprintf (BUFFLEN - 1) body [] = Some out ->
  exists w' events,
    __Display function type fd color format args now w = Ret tt w'
    /\ trace w' = trace w ++ events
    /\ forall f, ESC ∉ written_to f events.
Proof.
  intros Hw Hnow Hc Hfn Hfile Hout Hr Hb Ho.
  exists (set_trace (trace w ++ Display_events function type fd color now out w)
            (set_timestamp (strftime_T now) w)),
    (Display_events function type fd color now out w).
  split; [eapply Display_run; eassumption|].
  split; [destruct w; reflexivity|].
  intros f. destruct (decide (f = resolved type fd w)) as [-> | Hf].
  - rewrite written_to_Display_events, (suppressed type w Hc).
    unfold header_text, tag_text. cbn [truthy DISABLE Z.eqb negb].
    rewrite !not_elem_of_app. repeat split.
    + destruct (truthy (showTrace w)); [|apply not_elem_of_nil].
      apply take_no_ESC. rewrite !not_elem_of_app.
      repeat split; auto using strftime_T_no_ESC, not_elem_of_nil;
        apply literal_no_ESC; reflexivity.
    + destruct (type =? ERROR); [apply literal_no_ESC; reflexivity|].
      destruct (type =? WARNING); [apply literal_no_ESC; reflexivity|].
      destruct (truthy (showTrace w)); apply literal_no_ESC; reflexivity.
    + exact Hout.
    + apply not_elem_of_nil.
    + destruct (truthy (autoNewline w)); apply literal_no_ESC; reflexivity.
  - rewrite (written_to_other (resolved type fd w)); [apply not_elem_of_nil|].
    intros g x Hx. apply Display_events_stream in Hx. congruence.
Qed.

(** DisplayColor(GREEN, ...) of a program whose output goes to a file. *)
Lemma no_escape_when_suppressed_witness :
  exists w' events,
    __Display (cs "main") STANDARD NULL GREEN (cs "count=%d") [VInt 5] noon
      to_file = Ret tt w'
    /\ trace w' = trace to_file ++ events
    /\ forall f, ESC ∉ written_to f events.
Proof.
  apply (no_escape_when_suppressed (cs "main") STANDARD NULL GREEN
           (cs "count=%d") [VInt 5] noon (cs "count=5") (cs "count=5") to_file
           to_file_wf);
    [ cbv; intuition discriminate
    | right; reflexivity
    | apply literal_no_ESC; reflexivity
    | apply literal_no_ESC; reflexivity
    | apply literal_no_ESC; reflexivity
    | discriminate | reflexivity | reflexivity ].
Defined.

Lemma custom_not_redirected (w : world) : call_colorfulness CUSTOM w = colorfulness w.
Proof.
  unfold call_colorfulness, redirected. cbn [CUSTOM STANDARD WARNING ERROR Z.eqb].
  rewrite !andb_false_r. reflexivity.
Qed.

(** X11. DisplayFile writes to the stream it is given and to no other,
    whatever verbose and the three destinations are, and the redirection
    flags do not switch its colours off: the colour before the header and
    the reset sequence after the body are written exactly when colorfulness
    is on. *)
Theorem DisplayFile_line (function : text) (fd : FILE_ptr) (format : text)
    (args : list va_arg) (now : tm) (body out : text) (w : world) :
  wf w ->
  fd <> NULL ->
  vsnprintf (BUFFLEN - 1) format args = Some body ->
  vsnprintf (BUFFLEN - 1) body [] = Some out ->
  exists w' events,
    DisplayFile function fd format args now w = Ret tt w'
    /\ trace w' = trace w ++ events
    /\ (forall f x, EvWrite f x ∈ events -> f = fd)
    /\ written_to fd events
       = (if truthy (showTrace w)
          then take 254 ((if truthy (colorfulness w) then RESET else [])
                         ++ cs "[" ++ strftime_T now ++ cs "][" ++ c_str (file w)
                         ++ cs "][" ++ function ++ cs "]") ++ cs " "
          else [])
         ++ out
         ++ (if truthy (colorfulness w) then RESET else [])
         ++ (if truthy (autoNewline w) then [LF] else []).
Proof.
  intros Hw Hfd Hb Ho. unfold DisplayFile.
  assert (Hr : resolved CUSTOM fd w = fd) by reflexivity.
  exists (set_trace (trace w ++ Display_events function CUSTOM fd RESET now out w)
            (set_timestamp (strftime_T now) w)),
    (Display_events function CUSTOM fd RESET now out w).
  split; [eapply Display_run; try eassumption; rewrite Hr; exact Hfd|].
  split; [destruct w; reflexivity|].
  split; [intros f x Hx; apply Display_events_stream in Hx; exact Hx|].
  rewrite <- Hr at 1. rewrite written_to_Display_events, custom_not_redirected.
  unfold header_text, tag_text. cbn [CUSTOM ERROR WARNING Z.eqb].
  destruct (truthy (showTrace w)); [rewrite <- app_assoc|]; reflexivity.
Qed.

(** Both standard streams redirected, verbosity off, colorfulness on. *)
Lemma DisplayFile_line_witness :
  exists w' events,
    DisplayFile (cs "main") (fopened 0) (cs "Process booted (%d).") [VInt 6] noon
      (set_stderrToFile 1 (set_stdoutToFile 1 silent)) = Ret tt w'
    /\ trace w' = trace (set_stderrToFile 1 (set_stdoutToFile 1 silent)) ++ events
    /\ (forall f x, EvWrite f x ∈ events -> f = fopened 0)
    /\ written_to (fopened 0) events
       = RESET ++ cs "[12:00:00][demo.c][main] Process booted (6)." ++ RESET ++ [LF].
Proof.
  apply (DisplayFile_line (cs "main") (fopened 0) (cs "Process booted (%d).")
           [VInt 6] noon (cs "Process booted (6).") (cs "Process booted (6).")
           (set_stderrToFile 1 (set_stdoutToFile 1 silent)));
    [split; cbn; auto | discriminate | reflexivity | reflexivity].
Defined.

(** X12. The colours are switched off by category and flag, not by stream:
    after SetStream sends STANDARD to a stream of the caller, a call for
    STANDARD in a program whose stdout was a terminal, with colorfulness on,
    writes the colour, the header, the body and the reset sequence to that
    stream. *)
Theorem colours_reach_a_stream_set_later (function : text) (newStream : FILE_ptr)
    (color format : text) (args : list va_arg) (now : tm)
    (body out : text) (w : world) :
  wf w ->
  stdoutToFile w = 0 ->
  colorfulness w = ENABLE ->
  newStream <> NULL ->
  vsnprintf (BUFFLEN - 1) format args = Some body ->
  vsnprintf (BUFFLEN - 1) body [] = Some out ->
  exists w' events,
    (SetStream STANDARD newStream;;
     __Display function STANDARD NULL color format args now) w = Ret tt w'
    /\ trace w' = trace w ++ events
    /\ written_to newStream events
       = (if truthy (showTrace w)
          then take 254 (color ++ cs "[" ++ strftime_T now ++ cs "]["
                         ++ c_str (file w) ++ cs "][" ++ function ++ cs "]")
               ++ cs " "
          else [])
         ++ out ++ RESET
         ++ (if truthy (autoNewline w) then [LF] else []).
Proof.
  intros Hw Hf Hc Hn Hb Ho.
  set (w1 := set_streams (<[Z.to_nat STANDARD := newStream]> (streams w)) w).
  assert (Hr : resolved STANDARD NULL w1 = newStream)
    by (apply resolved_SetStream; [apply Hw | left; reflexivity]).
  assert (Hcc : call_colorfulness STANDARD w1 = ENABLE).
  { unfold call_colorfulness, redirected.
    replace (stdoutToFile w1) with 0 by (destruct w; symmetry; exact Hf).
    replace (colorfulness w1) with ENABLE by (destruct w; symmetry; exact Hc).
    cbn [truthy Z.eqb negb andb orb STANDARD WARNING ERROR].
    rewrite andb_false_r. reflexivity. }
  exists (set_trace (trace w1 ++ Display_events function STANDARD NULL color now out w1)
            (set_timestamp (strftime_T now) w1)),
    (Display_events function STANDARD NULL color now out w1).
  split; [|split].
  - erewrite bind_eq by (apply SetStream_run; left; reflexivity).
    apply Display_run with (body := body); try assumption.
    + apply SetStream_wf, Hw.
    + fold w1. rewrite Hr. exact Hn.
  - destruct w; reflexivity.
  - rewrite <- Hr at 1. rewrite written_to_Display_events, Hcc.
    unfold header_text, tag_text. cbn [truthy ENABLE Z.eqb negb STANDARD ERROR WARNING].
    replace (showTrace w1) with (showTrace w) by (destruct w; reflexivity).
    replace (autoNewline w1) with (autoNewline w) by (destruct w; reflexivity).
    replace (file w1) with (file w) by (destruct w; reflexivity).
    destruct (truthy (showTrace w)); [rewrite <- !app_assoc|]; reflexivity.
Qed.

(** demo.c, lines 42 to 44, with colorfulness still on. *)
Lemma colours_reach_a_stream_set_later_witness :
  exists w' events,
    (SetStream STANDARD (fopened 0);;
     __Display (cs "main") STANDARD NULL RESET (cs "Hello, text file!") [] noon)
      ready = Ret tt w'
    /\ trace w' = trace ready ++ events
    /\ written_to (fopened 0) events
       = RESET ++ cs "[12:00:00][demo.c][main] Hello, text file!" ++ RESET ++ [LF].
Proof.
  apply (colours_reach_a_stream_set_later (cs "main") (fopened 0) RESET
           (cs "Hello, text file!") [] noon (cs "Hello, text file!")
           (cs "Hello, text file!") ready ready_wf);
    [reflexivity | reflexivity | discriminate | reflexivity | reflexivity].
Defined.

(** ** Bounds *)

Lemma Display_events_length (function : text) (type : Z) (fd : FILE_ptr)
    (color : text) (now : tm) (out : text) (w : world) (f : FILE_ptr) (x : text) :
  (length out <= 254)%nat ->
  EvWrite f x ∈ Display_events function type fd color now out w ->
  (length x <= 254)%nat.
Proof.
  intros Hout.
  unfold Display_events, Display_writes, header_events, tag_events,
    reset_events, newline_events.
  destruct (truthy (isLocked w)), (truthy (showTrace w)), (type =? ERROR),
    (type =? WARNING), (truthy (call_colorfulness type w)),
    (truthy (autoNewline w));
    cbn [app]; intros H;
    repeat (apply elem_of_cons in H as [H | H];
            [ first [ discriminate H
                    | injection H as _ ->;
                      first [ exact Hout
                            | unfold header_text; rewrite length_take; lia
                            | cbn; lia ] ]
            | ]);
    apply elem_of_nil in H; contradiction.
Qed.

(** X13. No write of a call of __Display is longer than 254 characters, one
    less than the 255 that BUFFLEN-1 suggests: the header as a whole and the
    body are each cut to that length. *)
Theorem Display_writes_are_bounded (function : text) (type : Z) (fd : FILE_ptr)
    (color format : text) (args : list va_arg) (now : tm)
    (body out : text) (w : world) :
  wf w ->
  resolved type fd w <> NULL ->
  vsnprintf (BUFFLEN - 1) format args = Some body ->
  vsnprintf (BUFFLEN - 1) body [] = Some out ->
  exists w' events,
    __Display function type fd color format args now w = Ret tt w'
    /\ trace w' = trace w ++ events
    /\ forall f x, EvWrite f x ∈ events -> (length x <= 254)%nat.
Proof.
  intros Hw Hr Hb Ho.
  exists (set_trace (trace w ++ Display_events function type fd color now out w)
            (set_timestamp (strftime_T now) w)),
    (Display_events function type fd color now out w).
  split; [eapply Display_run; eassumption|].
  split; [destruct w; reflexivity|].
  intros f x Hx. eapply Display_events_length; [|exact Hx].
  apply vsnprintf_length in Ho. exact Ho.
Qed.

Lemma Display_writes_are_bounded_witness :
  exists w' events,
    __Display (cs "main") STANDARD NULL RESET (cs "count=%d") [VInt 5] noon ready
    = Ret tt w'
    /\ trace w' = trace ready ++ events
    /\ forall f x, EvWrite f x ∈ events -> (length x <= 254)%nat.
Proof.
  apply (Display_writes_are_bounded (cs "main") STANDARD NULL RESET
           (cs "count=%d") [VInt 5] noon (cs "count=5") (cs "count=5") ready
           ready_wf);
    [discriminate | reflexivity | reflexivity].
Defined.

Lemma vsnprintf_plain (s : text) :
  "%"%char ∉ s -> vsnprintf (BUFFLEN - 1) s [] = Some (take 254 s).
Proof. intros Hs. unfold vsnprintf. rewrite format_output_plain by exact Hs. reflexivity. Qed.

Lemma take_no_percent (n : nat) (s : text) : "%"%char ∉ s -> "%"%char ∉ take n s.
Proof.
  intros Hs Hin. apply elem_of_take in Hin as (i & Hi & _).
  apply Hs, list_elem_of_lookup. exists i. exact Hi.
Qed.

(** X14. A message without any % and without arguments is written as it is
    when it has at most 254 characters, and cut to its first 254 characters
    when it is longer; the rest is dropped without any sign of it. *)
Theorem long_message_is_cut (function : text) (type : Z) (fd : FILE_ptr)
    (color format : text) (now : tm) (w : world) :
  wf w ->
  resolved type fd w <> NULL ->
  "%"%char ∉ format ->
  exists w' events,
    __Display function type fd color format [] now w = Ret tt w'
    /\ trace w' = trace w ++ events
    /\ EvWrite (resolved type fd w) (take 254 format) ∈ events
    /\ ((254 < length format)%nat -> forall f, EvWrite f format ∉ events).
Proof.
  intros Hw Hr Hp.
  exists (set_trace (trace w ++ Display_events function type fd color now
                                  (take 254 format) w)
            (set_timestamp (strftime_T now) w)),
    (Display_events function type fd color now (take 254 format) w).
  split; [|split; [|split]].
  - apply Display_run with (body := take 254 format); try assumption.
    + apply vsnprintf_plain, Hp.
    + rewrite vsnprintf_plain by apply take_no_percent, Hp.
      rewrite take_take. reflexivity.
  - destruct w; reflexivity.
  - apply Display_events_body.
  - intros Hl f Hx.
    assert (Hlen : (length (take 254 format) <= 254)%nat)
      by (rewrite length_take; lia).
    pose proof (Display_events_length _ _ _ _ _ _ _ _ _ Hlen Hx). lia.
Qed.

Lemma long_message_is_cut_witness :
  exists w' events,
    __Display (cs "main") STANDARD NULL RESET (replicate 300 "x"%char) [] noon ready
    = Ret tt w'
    /\ trace w' = trace ready ++ events
    /\ EvWrite stdout (replicate 254 "x"%char) ∈ events
    /\ forall f, EvWrite f (replicate 300 "x"%char) ∉ events.
Proof.
  destruct (long_message_is_cut (cs "main") STANDARD NULL RESET
              (replicate 300 "x"%char) noon ready ready_wf)
    as (w' & events & H1 & H2 & H3 & H4).
  - discriminate.
  - intros Hin. apply elem_of_replicate in Hin as [Hin _]. discriminate.
  - exists w', events. split; [exact H1|]. split; [exact H2|].
    split; [exact H3|]. apply H4. rewrite length_replicate. lia.
Defined.

(** ** Calls without a stream *)

Lemma bind_Undefined {A B} (m : M A) (k : A -> M B) (w : world) :
  m w = Undefined -> bind m k w = Undefined.
Proof. unfold bind. intros ->. reflexivity. Qed.

Lemma dprint_NULL (format : text) (args : list va_arg) (w : world) :
  dprint NULL format args w = Undefined.
Proof. unfold dprint. destruct (vsnprintf _ _ _); reflexivity. Qed.

(** A call of [__Display] whose stream is null stops at its first write. *)
Lemma Display_NULL_run (function : text) (type : Z) (fd : FILE_ptr)
    (color format : text) (args : list va_arg) (now : tm) (w : world) :
  wf w ->
  resolved type fd w = NULL ->
  __Display function type fd color format args now w = Undefined.
Proof.
  intros [Hc Hl _ _ _] Hr.
  unfold __Display, GetColorfulness.
  rewrite bind_gets; cbv beta.
  erewrite bind_eq by (apply acquire_run; exact Hl).
  rewrite !bind_gets; cbv beta.
  erewrite bind_eq by (apply (suppress_run type)).
  erewrite bind_eq by (apply (resolve_run type fd)).
  replace (resolved type fd _) with NULL by (rewrite <- Hr; reflexivity).
  rewrite bind_modify, bind_gets; cbv beta.
  match goal with |- bind (when (truthy ?s) _) _ _ = _ => destruct (truthy s) eqn:Es end.
  - apply bind_Undefined. unfold when. rewrite !bind_gets.
    match goal with |- (if ?c then _ else _) _ = _ => destruct c end;
      reflexivity.
  - erewrite bind_eq by reflexivity.
    destruct (type =? ERROR); [apply bind_Undefined, dprint_NULL|].
    destruct (type =? WARNING); [apply bind_Undefined, dprint_NULL|].
    erewrite bind_eq by (rewrite bind_gets, Es; reflexivity).
    destruct (vsnprintf (BUFFLEN - 1) format args); [|reflexivity].
    apply bind_Undefined, dprint_NULL.
Qed.

(** X15. A call of __Display whose stream is null (a category that has no
    stream yet, a category outside the four, or DisplayFile given a null
    stream) never returns and never calls exit: it reaches fprintf with the
    null stream, which the C library does not define. *)
Theorem Display_needs_a_stream (function : text) (type : Z) (fd : FILE_ptr)
    (color format : text) (args : list va_arg) (now : tm) (w : world) :
  wf w ->
  resolved type fd w = NULL ->
  __Display function type fd color format args now w = Undefined.
Proof. apply Display_NULL_run. Qed.

Lemma Display_needs_a_stream_witness :
  __Display (cs "main") 7 stdout RESET (cs "count=%d") [VInt 5] noon ready
  = Undefined.
Proof.
  apply (Display_needs_a_stream (cs "main") 7 stdout RESET (cs "count=%d")
           [VInt 5] noon ready ready_wf).
  reflexivity.
Defined.

(** X16. SetStream takes the null stream without complaint and returns 0;
    every call of __Display for that category is then undefined. *)
Theorem SetStream_NULL_then_Display (function : text) (type : Z) (fd : FILE_ptr)
    (color format : text) (args : list va_arg) (now : tm) (w : world) :
  wf w ->
  type = STANDARD \/ type = WARNING \/ type = ERROR ->
  exists w1,
    SetStream type NULL w = Ret 0 w1
    /\ __Display function type fd color format args now w1 = Undefined.
Proof.
  intros Hw Ht. eexists. split; [apply SetStream_run, Ht|].
  apply Display_NULL_run; [apply SetStream_wf, Hw|].
  apply resolved_SetStream; [apply Hw | exact Ht].
Qed.

Lemma SetStream_NULL_then_Display_witness :
  exists w1,
    SetStream WARNING NULL ready = Ret 0 w1
    /\ __Display (cs "main") WARNING NULL (BOLD ++ YELLOW) (cs "count=%d")
         [VInt 5] noon w1 = Undefined.
Proof.
  apply (SetStream_NULL_then_Display (cs "main") WARNING NULL (BOLD ++ YELLOW)
           (cs "count=%d") [VInt 5] noon ready ready_wf).
  right; left; reflexivity.
Defined.

(** X17. Before InitializeDisplay the three destinations are null, so
    Display, DisplayColor, DisplayWarning and DisplayError are undefined
    for every message: the question mark, which is the label at that time,
    is never printed by them. *)
Theorem logging_before_InitializeDisplay (function color format : text)
    (args : list va_arg) (now : tm) :
  Display function format args now startup = Undefined
  /\ DisplayColor function color format args now startup = Undefined
  /\ DisplayWarning function format args now startup = Undefined
  /\ DisplayError function format args now startup = Undefined
  /\ GetFilename startup = Ret (cs "?") startup.
Proof.
  unfold Display, DisplayColor, DisplayWarning, DisplayError.
  rewrite !bind_gets. cbn [verbose startup truthy ENABLE Z.eqb negb].
  repeat split; try (apply Display_NULL_run; [apply startup_wf | reflexivity]).
Qed.

(** ** Calls in a row *)

(** X18. With the trace, colorfulness and autoNewline all off, Display
    writes the body and nothing else, so two calls in a row put their bodies
    side by side on stdout's stream: nothing separates them. *)
Theorem bodies_side_by_side (function1 function2 format1 format2 : text)
    (args1 args2 : list va_arg) (now1 now2 : tm)
    (body1 out1 body2 out2 : text) (w : world) :
  wf w ->
  verbose w <> 0 ->
  showTrace w = DISABLE -> colorfulness w = DISABLE -> autoNewline w = DISABLE ->
  resolved STANDARD NULL w <> NULL ->
  vsnprintf (BUFFLEN - 1) format1 args1 = Some body1 ->
  vsnprintf (BUFFLEN - 1) body1 [] = Some out1 ->
  vsnprintf (BUFFLEN - 1) format2 args2 = Some body2 ->
  vsnprintf (BUFFLEN - 1) body2 [] = Some out2 ->
  exists w' events,
    (Display function1 format1 args1 now1;;
     Display function2 format2 args2 now2) w = Ret tt w'
    /\ trace w' = trace w ++ events
    /\ written_to (resolved STANDARD NULL w) events = out1 ++ out2.
Proof.
  intros Hw Hv HsT Hc Ha Hr Hb1 Ho1 Hb2 Ho2.
  set (r := resolved STANDARD NULL w) in *.
  set (e1 := Display_events function1 STANDARD NULL RESET now1 out1 w).
  set (w1 := set_trace (trace w ++ e1) (set_timestamp (strftime_T now1) w)).
  set (e2 := Display_events function2 STANDARD NULL RESET now2 out2 w1).
  assert (Hline : forall f now out w0,
             showTrace w0 = DISABLE -> colorfulness w0 = DISABLE ->
             autoNewline w0 = DISABLE ->
             written_to (resolved STANDARD NULL w0)
               (Display_events f STANDARD NULL RESET now out w0) = out).
  { intros f now out w0 H1 H2 H3. rewrite written_to_Display_events.
    rewrite (suppressed STANDARD w0) by (left; exact H2).
    unfold tag_text. rewrite H1, H3.
    cbn [truthy DISABLE STANDARD ERROR WARNING Z.eqb negb app].
    apply app_nil_r. }
  assert (Ht : truthy (verbose w) = true) by (unfold truthy; lia).
  exists (set_trace (trace w1 ++ e2) (set_timestamp (strftime_T now2) w1)), (e1 ++ e2).
  split; [|split].
  - unfold Display.
    erewrite bind_eq.
    2:{ rewrite bind_gets, Ht. eapply Display_run; eassumption. }
    fold e1 w1. rewrite bind_gets.
    replace (verbose w1) with (verbose w) by (destruct w; reflexivity).
    rewrite Ht. eapply Display_run; try eassumption.
    destruct Hw. destruct w; split; assumption.
  - destruct w; cbn [trace]. unfold w1. fields. rewrite <- app_assoc. reflexivity.
  - rewrite written_to_app. f_equal.
    + apply Hline; assumption.
    + replace r with (resolved STANDARD NULL w1) by (destruct w; reflexivity).
      apply Hline; destruct w; assumption.
Qed.

(** demo.c, lines 29 to 33, with autoNewline, the trace and the colours
    off. *)
Lemma bodies_side_by_side_witness :
  exists w' events,
    (Display (cs "main") (cs "Hello, ") [] noon;;
     Display (cs "main") (cs "World!") [] noon)
      (set_autoNewline DISABLE (set_colorfulness DISABLE traceless)) = Ret tt w'
    /\ trace w'
       = trace (set_autoNewline DISABLE (set_colorfulness DISABLE traceless))
         ++ events
    /\ written_to stdout events = cs "Hello, World!".
Proof.
  apply (bodies_side_by_side (cs "main") (cs "main") (cs "Hello, ") (cs "World!")
           [] [] noon noon (cs "Hello, ") (cs "Hello, ") (cs "World!")
           (cs "World!")
           (set_autoNewline DISABLE (set_colorfulness DISABLE traceless)));
    [ split; cbn; auto | discriminate | reflexivity | reflexivity | reflexivity
    | discriminate | reflexivity | reflexivity | reflexivity | reflexivity ].
Defined.

(** ** What a call leaves alone *)



(** A call whose format does not suit its arguments, or whose body is not a
    format [dprint] can take, has no defined result. *)
Lemma Display_stuck (function : text) (type : Z) (fd : FILE_ptr)
    (color format : text) (args : list va_arg) (now : tm) (w : world) :
  wf w ->
  resolved type fd w <> NULL ->
  vsnprintf (BUFFLEN - 1) format args = None
  \/ (exists body, vsnprintf (BUFFLEN - 1) format args = Some body
                   /\ vsnprintf (BUFFLEN - 1) body [] = None) ->
  __Display function type fd color format args now w = Undefined.
Proof.
  intros [Hc Hl _ _ _] Hr H.
  unfold __Display, GetColorfulness.
  set (r := resolved type fd w) in *.
  destruct H as [Hb | (body & Hb & Ho)]; rewrite Hb;
    (rewrite bind_gets; cbv beta;
     erewrite bind_eq by (apply acquire_run; exact Hl);
     rewrite !bind_gets; cbv beta;
     erewrite bind_eq by (apply (suppress_run type));
     erewrite bind_eq by (apply (resolve_run type fd));
     replace (resolved type fd _) with r by reflexivity;
     rewrite bind_modify, bind_gets; cbv beta;
     erewrite bind_eq by (apply header_run; [exact Hr | reflexivity]);
     erewrite bind_eq by (apply tag_run; exact Hr)).
  - reflexivity.
  - apply bind_Undefined. unfold dprint. rewrite Ho. reflexivity.
Qed.

Lemma Display_preserves_wf (function : text) (type : Z) (fd : FILE_ptr)
    (color format : text) (args : list va_arg) (now : tm) :
  preserves_wf (__Display function type fd color format args now).
Proof.
  intros w w' a Hw.
  destruct (decide (resolved type fd w = NULL)) as [Hr | Hr].
  { rewrite Display_NULL_run by assumption. discriminate. }
  destruct (vsnprintf (BUFFLEN - 1) format args) as [body|] eqn:Hb.
  - destruct (vsnprintf (BUFFLEN - 1) body []) as [out|] eqn:Ho.
    + erewrite Display_run by eassumption. intros [= _ <-].
      apply Display_wf, Hw.
    + rewrite Display_stuck by eauto. discriminate.
  - rewrite Display_stuck by auto. discriminate.
Qed.

(** X20. Every function of the library keeps the world well formed when it
    returns: colorfulness is DISABLE or ENABLE, the mutex is held exactly
    when isLocked is set, streams has its three cells, and file has its 32
    cells and ends with a NUL, so the label is always a terminated string.
    The program starts in such a world. *)
Theorem library_keeps_worlds_well_formed :
  wf startup
  /\ (forall v, preserves_wf (SetVerbose v))
  /\ (forall c, preserves_wf (SetColorfulness c))
  /\ (forall s, preserves_wf (SetShowTrace s))
  /\ (forall a, preserves_wf (SetAutoNewline a))
  /\ (forall newFilename, preserves_wf (SetFilename newFilename))
  /\ (forall streamType newStream, preserves_wf (SetStream streamType newStream))
  /\ preserves_wf DisplayLock
  /\ preserves_wf DisplayUnlock
  /\ (forall stdout_isatty stderr_isatty opts base,
        preserves_wf (__InitializeDisplay stdout_isatty stderr_isatty opts base))
  /\ (forall function type fd color format args now,
        preserves_wf (__Display function type fd color format args now))
  /\ (forall function format args now,
        preserves_wf (Display function format args now))
  /\ (forall function color format args now,
        preserves_wf (DisplayColor function color format args now)).
Proof.
  split; [apply startup_wf|].
  split; [apply SetVerbose_wf|].
  split; [apply SetColorfulness_wf|].
  split; [apply SetShowTrace_wf|].
  split; [apply SetAutoNewline_wf|].
  split; [apply SetFilename_wf|].
  split; [apply SetStream_preserves_wf|].
  split; [apply DisplayLock_wf|].
  split; [apply DisplayUnlock_wf|].
  split; [apply InitializeDisplay_wf|].
  split; [apply Display_preserves_wf|].
  split; intros; unfold Display, DisplayColor;
    (apply bind_wf; [apply gets_wf|]); intros v;
    destruct (truthy v); auto using Display_preserves_wf, ret_wf.
Qed.

(** The world after InitializeDisplay and SetShowTrace(DISABLE). *)
Lemma library_keeps_worlds_well_formed_witness :
  (__InitializeDisplay true true [] (cs "demo.c");; SetShowTrace DISABLE) startup
  = Ret 0 traceless
  /\ wf traceless.
Proof.
  destruct library_keeps_worlds_well_formed
    as (H0 & _ & _ & Hs & _ & _ & _ & _ & _ & Hi & _).
  split; [reflexivity|].
  apply (bind_wf _ _ (Hi true true [] (cs "demo.c")) (fun _ => Hs DISABLE)
           startup traceless 0 H0).
  reflexivity.
Defined.

(** ** Warnings and errors *)

Lemma stderr_colorfulness (type : Z) (w : world) :
  type = WARNING \/ type = ERROR ->
  call_colorfulness type w
  = if truthy (stderrToFile w) then DISABLE else colorfulness w.
Proof.
  unfold call_colorfulness, redirected.
  intros [-> | ->]; cbn [STANDARD WARNING ERROR Z.eqb orb];
    rewrite andb_false_r, andb_true_r; reflexivity.
Qed.

(** X21. The text of DisplayWarning and of DisplayError: the header in bold
    yellow, or bold red, when the trace is shown, then the tag [WARNING] or
    [ERROR] and a space, the body, the reset sequence and the newline.  The
    colour and the reset sequence are left out when colorfulness is off or
    when stderr was found redirected; whether stdout was is of no
    consequence, even when the category has been sent to stdout. *)
Theorem warning_and_error_lines (function format : text) (args : list va_arg)
    (now : tm) (body out : text) (w : world) :
  wf w ->
  resolved WARNING NULL w <> NULL ->
  resolved ERROR NULL w <> NULL ->
  vsnprintf (BUFFLEN - 1) format args = Some body ->
  vsnprintf (BUFFLEN - 1) body [] = Some out ->
  let c := if truthy (stderrToFile w) then DISABLE else colorfulness w in
  let line (colour tag : text) :=
    (if truthy (showTrace w)
     then take 254 ((if truthy c then colour else [])
                    ++ cs "[" ++ strftime_T now ++ cs "][" ++ c_str (file w)
                    ++ cs "][" ++ function ++ cs "]")
     else [])
    ++ tag ++ out
    ++ (if truthy c then RESET else [])
    ++ (if truthy (autoNewline w) then [LF] else []) in
  (exists w' events,
     DisplayWarning function format args now w = Ret tt w'
     /\ trace w' = trace w ++ events
     /\ written_to (resolved WARNING NULL w) events
        = line (BOLD ++ YELLOW) (cs "[WARNING] "))
  /\ (exists w' events,
        DisplayError function format args now w = Ret tt w'
        /\ trace w' = trace w ++ events
        /\ written_to (resolved ERROR NULL w) events
           = line (BOLD ++ RED) (cs "[ERROR] ")).
Proof.
  intros Hw Hrw Hre Hb Ho. cbv zeta. unfold DisplayWarning, DisplayError.
  split.
  - exists (set_trace (trace w ++ Display_events function WARNING NULL
                                   (BOLD ++ YELLOW) now out w)
              (set_timestamp (strftime_T now) w)),
      (Display_events function WARNING NULL (BOLD ++ YELLOW) now out w).
    split; [eapply Display_run; eassumption|].
    split; [destruct w; reflexivity|].
    rewrite written_to_Display_events, stderr_colorfulness by (left; reflexivity).
    reflexivity.
  - exists (set_trace (trace w ++ Display_events function ERROR NULL
                                   (BOLD ++ RED) now out w)
              (set_timestamp (strftime_T now) w)),
      (Display_events function ERROR NULL (BOLD ++ RED) now out w).
    split; [eapply Display_run; eassumption|].
    split; [destruct w; reflexivity|].
    rewrite written_to_Display_events, stderr_colorfulness by (right; reflexivity).
    reflexivity.
Qed.

(** demo.c, lines 12 and 17, on a terminal. *)
Lemma warning_and_error_lines_witness :
  (exists w' events,
     DisplayWarning (cs "main") (cs "Numbers: %d, %d, %d") [VInt 1; VInt 2; VInt 3]
       noon ready = Ret tt w'
     /\ trace w' = trace ready ++ events
     /\ written_to stderr events
        = BOLD ++ YELLOW ++ cs "[12:00:00][demo.c][main][WARNING] Numbers: 1, 2, 3"
          ++ RESET ++ [LF])
  /\ (exists w' events,
        DisplayError (cs "main") (cs "Numbers: %d, %d, %d") [VInt 1; VInt 2; VInt 3]
          noon ready = Ret tt w'
        /\ trace w' = trace ready ++ events
        /\ written_to stderr events
           = BOLD ++ RED ++ cs "[12:00:00][demo.c][main][ERROR] Numbers: 1, 2, 3"
             ++ RESET ++ [LF]).
Proof.
  apply (warning_and_error_lines (cs "main") (cs "Numbers: %d, %d, %d")
           [VInt 1; VInt 2; VInt 3] noon (cs "Numbers: 1, 2, 3")
           (cs "Numbers: 1, 2, 3") ready ready_wf);
    [discriminate | discriminate | reflexivity | reflexivity].
Defined.

(** ** The label in the trace *)

(** X22. The label given to SetFilename is the label of the next header:
    after SetFilename, a call of __Display with the trace shown writes a
    header whose second field is the first 31 characters of that label. *)
Theorem label_set_is_label_shown (s function : text) (type : Z) (fd : FILE_ptr)
    (color format : text) (args : list va_arg) (now : tm)
    (body out : text) (w : world) :
  wf w ->
  showTrace w <> 0 ->
  resolved type fd w <> NULL ->
  vsnprintf (BUFFLEN - 1) format args = Some body ->
  vsnprintf (BUFFLEN - 1) body [] = Some out ->
  exists w' events,
    (SetFilename (Some s);;
     __Display function type fd color format args now) w = Ret tt w'
    /\ trace w' = trace w ++ events
    /\ EvWrite (resolved type fd w)
         (take 254 ((if truthy (call_colorfulness type w) then color else [])
                    ++ cs "[" ++ strftime_T now ++ cs "][" ++ take 31 (c_str s)
                    ++ cs "][" ++ function ++ cs "]")) ∈ events.
Proof.
  intros Hw HsT Hr Hb Ho.
  set (w1 := set_file (strncpy (file w) s (sizeof_file - 1)) w).
  assert (Hw1 : wf w1).
  { destruct Hw as [? ? ? Hl Hd]. destruct (strncpy_wf (file w) s Hl Hd).
    unfold w1. destruct w; split; assumption. }
  assert (Hlabel : c_str (file w1) = take 31 (c_str s)).
  { unfold w1. destruct w; cbn [file set_file]. apply c_str_strncpy, Hw. }
  exists (set_trace (trace w1 ++ Display_events function type fd color now out w1)
            (set_timestamp (strftime_T now) w1)),
    (Display_events function type fd color now out w1).
  split; [|split].
  - erewrite bind_eq by reflexivity. fold w1.
    eapply Display_run; eassumption.
  - destruct w; reflexivity.
  - unfold Display_events, Display_writes, header_events, header_text.
    rewrite Hlabel.
    replace (showTrace w1) with (showTrace w) by (destruct w; reflexivity).
    replace (call_colorfulness type w1) with (call_colorfulness type w)
      by (destruct w; reflexivity).
    replace (resolved type fd w1) with (resolved type fd w)
      by (destruct w; reflexivity).
    assert (Ht : truthy (showTrace w) = true) by (unfold truthy; lia).
    rewrite Ht. rewrite !elem_of_app. right. left. left.
    apply list_elem_of_singleton. reflexivity.
Qed.

Lemma label_set_is_label_shown_witness :
  exists w' events,
    (SetFilename (Some (cs "0123456789012345678901234567890123456789"));;
     __Display (cs "main") STANDARD NULL RESET (cs "count=%d") [VInt 5] noon)
      ready = Ret tt w'
    /\ trace w' = trace ready ++ events
    /\ EvWrite stdout
         (RESET ++ cs "[12:00:00][0123456789012345678901234567890][main]")
       ∈ events.
Proof.
  apply (label_set_is_label_shown (cs "0123456789012345678901234567890123456789")
           (cs "main") STANDARD NULL RESET (cs "count=%d") [VInt 5] noon
           (cs "count=5") (cs "count=5") ready ready_wf);
    [discriminate | discriminate | reflexivity | reflexivity].
Defined.
